(** * Ride-sharing record keeper: records, collections and console flows

    A shallow embedding of the C++ sources (driver, passenger, passengers,
    drivers and the three menu programs) and the properties of the
    specification checked against it.

    Conventions.
    - [int] values are integers of [Z]; the code does no arithmetic on them.
    - [float] values are IEEE binary32 numbers, written as [spec_float] of the
      Standard Library in canonical form (24 bit mantissa).
    - [std::string] is [string], [std::vector<T>] is [list T] with
      [push_back] appending at the end.
    - [cin] and [cout] are one explicit [world]; every I/O statement is an
      action of the state monad [IO]. *)

From Stdlib Require Import ZArith List String Ascii Bool Lia.
From Stdlib Require Import Floats.SpecFloat DecimalString DecimalNat.
Import ListNotations.

Local Open Scope string_scope.
Local Open Scope Z_scope.

(** ** Scalars *)

Definition float := spec_float.

(** The literals the sources compare against or assign: [0.0], and the
    [int] constants [1] and [5] converted to [float]. *)
Definition float_prec : Z := 24.
Definition float_emax : Z := 128.
Definition float_zero : float := S754_zero false.
Definition float_of_int (z : Z) : float :=
  binary_normalize float_prec float_emax z 0 false.

(** [a < b] on [float]; false when either side is a NaN. *)
Definition float_lt (a b : float) : bool := SFltb a b.

(** ** driver.h / driver.cpp *)

Module driver.

Record t := mk {
  d_id : Z;
  d_name : string;
  v_capacity : Z;
  handicap : bool;
  v_type : string;
  d_rating : float;
  v_available : bool;
  pets : bool;
  notes : string
}.

(** [driver::driver()] *)
Definition default : t :=
  {| d_id := 0;
     d_name := "None";
     v_capacity := 0;
     handicap := false;
     v_type := "Blank";
     d_rating := float_zero;
     v_available := false;
     pets := false;
     notes := "Blank" |}.

(** [driver::driver(int, string, int, bool, string, float, bool, bool, string)] *)
Definition make (d_id : Z) (d_name : string) (v_capacity : Z)
    (handicap : bool) (v_type : string) (d_rating : float)
    (v_available pets : bool) (notes : string) : t :=
  mk d_id d_name v_capacity handicap v_type d_rating v_available pets notes.

Definition setID (this : t) (i : Z) : t :=
  mk i (d_name this) (v_capacity this) (handicap this) (v_type this)
     (d_rating this) (v_available this) (pets this) (notes this).
Definition setName (this : t) (n : string) : t :=
  mk (d_id this) n (v_capacity this) (handicap this) (v_type this)
     (d_rating this) (v_available this) (pets this) (notes this).
Definition setCapacity (this : t) (i : Z) : t :=
  mk (d_id this) (d_name this) i (handicap this) (v_type this)
     (d_rating this) (v_available this) (pets this) (notes this).
Definition setHandicap (this : t) (b : bool) : t :=
  mk (d_id this) (d_name this) (v_capacity this) b (v_type this)
     (d_rating this) (v_available this) (pets this) (notes this).
Definition setType (this : t) (ty : string) : t :=
  mk (d_id this) (d_name this) (v_capacity this) (handicap this) ty
     (d_rating this) (v_available this) (pets this) (notes this).
Definition setRating (this : t) (r : float) : t :=
  mk (d_id this) (d_name this) (v_capacity this) (handicap this) (v_type this)
     r (v_available this) (pets this) (notes this).
Definition setAvailable (this : t) (b : bool) : t :=
  mk (d_id this) (d_name this) (v_capacity this) (handicap this) (v_type this)
     (d_rating this) b (pets this) (notes this).
Definition setPets (this : t) (b : bool) : t :=
  mk (d_id this) (d_name this) (v_capacity this) (handicap this) (v_type this)
     (d_rating this) (v_available this) b (notes this).
Definition setNotes (this : t) (n : string) : t :=
  mk (d_id this) (d_name this) (v_capacity this) (handicap this) (v_type this)
     (d_rating this) (v_available this) (pets this) n.

Definition getID (this : t) : Z := d_id this.
Definition getName (this : t) : string := d_name this.
Definition getCapacity (this : t) : Z := v_capacity this.
Definition getHandicap (this : t) : bool := handicap this.
Definition getType (this : t) : string := v_type this.
Definition getRating (this : t) : float := d_rating this.
Definition getAvailable (this : t) : bool := v_available this.
Definition getPets (this : t) : bool := pets this.
Definition getNotes (this : t) : string := notes this.

End driver.

(** ** passenger.h / passenger.cpp *)

Module passenger.

Record t := mk {
  name : string;
  id : Z;
  p_method : string;
  handicap : bool;
  rating : float;
  pets : bool
}.

(** [passenger::passenger()] has an empty body: the two [string] members
    are default-constructed (empty) and the four scalar members are left
    unassigned.  [indet] stands for whatever the object's storage holds;
    only its scalar members are read. *)
Definition default (indet : t) : t :=
  {| name := "";
     id := id indet;
     p_method := "";
     handicap := handicap indet;
     rating := rating indet;
     pets := pets indet |}.

(** [passenger::passenger(string, int, string, bool, float, bool)] *)
Definition make (name : string) (id : Z) (p_method : string)
    (handicap : bool) (rating : float) (pets : bool) : t :=
  mk name id p_method handicap rating pets.

Definition setName (this : t) (n : string) : t :=
  mk n (id this) (p_method this) (handicap this) (rating this) (pets this).
Definition setID (this : t) (i : Z) : t :=
  mk (name this) i (p_method this) (handicap this) (rating this) (pets this).
Definition setPaymentMethod (this : t) (p : string) : t :=
  mk (name this) (id this) p (handicap this) (rating this) (pets this).
Definition setHandicap (this : t) (b : bool) : t :=
  mk (name this) (id this) (p_method this) b (rating this) (pets this).
Definition setRating (this : t) (f : float) : t :=
  mk (name this) (id this) (p_method this) (handicap this) f (pets this).
Definition setPets (this : t) (b : bool) : t :=
  mk (name this) (id this) (p_method this) (handicap this) (rating this) b.

Definition getName (this : t) : string := name this.
Definition getID (this : t) : Z := id this.
Definition getPayment (this : t) : string := p_method this.
Definition getHandicap (this : t) : bool := handicap this.
Definition getRating (this : t) : float := rating this.
Definition getPets (this : t) : bool := pets this.

End passenger.

(** ** The console: [cin] and [cout] *)

(** [cin] is the unread characters and the two state bits the extractions
    look at; [cout] is the text inserted so far. *)
Record istream := mk_istream {
  buf : string;
  eofbit : bool;
  failbit : bool
}.

Record world := mk_world {
  cin : istream;
  cout : string
}.

(** An I/O statement: a function from the console to a value and the
    console after it. *)
Definition IO (A : Type) : Type := world -> A * world.

Definition ret {A : Type} (a : A) : IO A := fun w => (a, w).

Definition bind {A B : Type} (m : IO A) (k : A -> IO B) : IO B :=
  fun w => let (a, w') := m w in k a w'.

Declare Scope io_scope.
Delimit Scope io_scope with io.
Notation "x <- m ;; k" := (bind m (fun x => k))
  (at level 61, m at next level, right associativity) : io_scope.
Notation "m ;; k" := (bind m (fun _ => k))
  (at level 61, right associativity) : io_scope.
Local Open Scope io_scope.

(** A statement sequence with loops whose exit depends on the input: it is
    run with a bound [fuel] on the iterations of each loop, and [None] says
    the bound was reached before the loop was left. *)
Definition Partial (A : Type) : Type := world -> option (A * world).

Definition lift {A : Type} (m : IO A) : Partial A := fun w => Some (m w).

Definition pbind {A B : Type} (m : Partial A) (k : A -> Partial B) : Partial B :=
  fun w => match m w with
           | Some (a, w') => k a w'
           | None => None
           end.

Notation "x <~ m ;; k" := (pbind m (fun x => k))
  (at level 61, m at next level, right associativity) : io_scope.

(** [do body while (cond);] over the variables [S] the loop touches. *)
Fixpoint do_while {S : Type} (fuel : nat) (body : S -> IO S)
    (cond : S -> bool) (s : S) : Partial S :=
  fun w =>
    match fuel with
    | O => None
    | Datatypes.S fuel' =>
        let (s', w') := body s w in
        if cond s' then do_while fuel' body cond s' w' else Some (s', w')
    end.

(** [while (cond) body] *)
Fixpoint while_do {S : Type} (fuel : nat) (cond : S -> bool)
    (body : S -> Partial S) (s : S) : Partial S :=
  fun w =>
    match fuel with
    | O => None
    | Datatypes.S fuel' =>
        if cond s then
          match body s w with
          | Some (s', w') => while_do fuel' cond body s' w'
          | None => None
          end
        else Some (s, w)
    end.

(** *** Characters *)

Definition nl : ascii := "010"%char.
Definition endl : string := String nl EmptyString.

(** [isspace] in the "C" locale: space, \t, \n, \v, \f, \r. *)
Definition isspace (c : ascii) : bool :=
  let n := N_of_ascii c in
  (N.eqb n 32 || (N.leb 9 n && N.leb n 13))%bool.

Definition isdigit (c : ascii) : bool :=
  let n := N_of_ascii c in (N.leb 48 n && N.leb n 57)%bool.

(** [toupper] in the "C" locale. *)
Definition toupper (c : ascii) : ascii :=
  let n := N_of_ascii c in
  if (N.leb 97 n && N.leb n 122)%bool then ascii_of_N (n - 32) else c.

Fixpoint skipws (s : string) : string :=
  match s with
  | EmptyString => EmptyString
  | String c s' => if isspace c then skipws s' else s
  end.

(** The characters up to the next white space, and the rest. *)
Fixpoint span_word (s : string) : string * string :=
  match s with
  | EmptyString => (EmptyString, EmptyString)
  | String c s' =>
      if isspace c then (EmptyString, s)
      else let (w, r) := span_word s' in (String c w, r)
  end.

(** The characters up to the next newline, and what follows the newline;
    [None] for the rest when the input ends before a newline. *)
Fixpoint span_line (s : string) : string * option string :=
  match s with
  | EmptyString => (EmptyString, None)
  | String c s' =>
      if Ascii.eqb c nl then (EmptyString, Some s')
      else let (l, r) := span_line s' in (String c l, r)
  end.

Fixpoint span_digits (s : string) : string * string :=
  match s with
  | EmptyString => (EmptyString, EmptyString)
  | String c s' =>
      if isdigit c then let (ds, r) := span_digits s' in (String c ds, r)
      else (EmptyString, s)
  end.

Fixpoint digits_value (acc : Z) (ds : string) : Z :=
  match ds with
  | EmptyString => acc
  | String c ds' => digits_value (10 * acc + (Z.of_N (N_of_ascii c) - 48)) ds'
  end.

Definition is_empty (s : string) : bool :=
  match s with EmptyString => true | _ => false end.

(** *** Insertions into [cout] *)

Definition put (s : string) : IO unit :=
  fun w => (tt, mk_world (cin w) (cout w ++ s)).

(** [cout << n] for a [size_t] and for an [int]: decimal digits. *)
Definition put_size (n : nat) : IO unit :=
  put (NilEmpty.string_of_uint (Nat.to_uint n)).

Definition put_int (z : Z) : IO unit :=
  put (NilEmpty.string_of_int (Z.to_int z)).

(** *** Extractions from [cin] *)

Definition good (i : istream) : bool := (negb (eofbit i) && negb (failbit i))%bool.

(** The sentry every extraction starts with: a stream that is not good gets
    [failbit] and the extraction does nothing; a formatted extraction then
    skips white space, and running out of input there sets both bits. *)
Definition sentry (noskipws : bool) (i : istream) : istream * bool :=
  if good i then
    if noskipws then (i, true)
    else match skipws (buf i) with
         | EmptyString => (mk_istream EmptyString true true, false)
         | b => (mk_istream b false false, true)
         end
  else (mk_istream (buf i) (eofbit i) true, false).

(** [cin.ignore()]: drops one character. *)
Definition cin_ignore : IO unit := fun w =>
  let (i, ok) := sentry true (cin w) in
  if ok then
    match buf i with
    | EmptyString => (tt, mk_world (mk_istream EmptyString true false) (cout w))
    | String _ r => (tt, mk_world (mk_istream r false false) (cout w))
    end
  else (tt, mk_world i (cout w)).

(** [cin >> c] for a [char]; [old] is the variable's value before, kept when
    nothing is extracted. *)
Definition get_char (old : ascii) : IO ascii := fun w =>
  let (i, ok) := sentry false (cin w) in
  if ok then
    match buf i with
    | EmptyString => (old, mk_world (mk_istream EmptyString true true) (cout w))
    | String c r => (c, mk_world (mk_istream r false false) (cout w))
    end
  else (old, mk_world i (cout w)).

(** [cin >> s] for a [string]: the next word. *)
Definition get_string (old : string) : IO string := fun w =>
  let (i, ok) := sentry false (cin w) in
  if ok then
    let (s, r) := span_word (buf i) in
    (s, mk_world (mk_istream r (is_empty r) (is_empty s)) (cout w))
  else (old, mk_world i (cout w)).

(** [getline(cin, s)]: the rest of the line, the newline dropped. *)
Definition getline (old : string) : IO string := fun w =>
  let (i, ok) := sentry true (cin w) in
  if ok then
    match span_line (buf i) with
    | (l, Some r) => (l, mk_world (mk_istream r false false) (cout w))
    | (l, None) => (l, mk_world (mk_istream EmptyString true (is_empty l)) (cout w))
    end
  else (old, mk_world i (cout w)).

(** The integer conversion of [num_get]: an optional sign, decimal digits;
    no digit stores 0 and fails, a value outside [lo, hi] stores the bound
    and fails.  Returns the value, whether it failed, and the unread rest. *)
Definition extract_int (lo hi : Z) (s : string) : Z * bool * string :=
  let '(neg, s1) :=
    match s with
    | String "-"%char r => (true, r)
    | String "+"%char r => (false, r)
    | _ => (false, s)
    end in
  let (ds, r) := span_digits s1 in
  if is_empty ds then (0, true, r)
  else
    let v := if neg then - digits_value 0 ds else digits_value 0 ds in
    if v <? lo then (lo, true, r)
    else if hi <? v then (hi, true, r)
    else (v, false, r).

Definition INT_MIN : Z := - 2 ^ 31.
Definition INT_MAX : Z := 2 ^ 31 - 1.
Definition LONG_MIN : Z := - 2 ^ 63.
Definition LONG_MAX : Z := 2 ^ 63 - 1.

(** [cin >> n] for an [int]. *)
Definition get_int (old : Z) : IO Z := fun w =>
  let (i, ok) := sentry false (cin w) in
  if ok then
    let '(v, failed, r) := extract_int INT_MIN INT_MAX (buf i) in
    (v, mk_world (mk_istream r (is_empty r) failed) (cout w))
  else (old, mk_world i (cout w)).

(** [cin >> b] for a [bool] (no [boolalpha]): read as a [long]; 0 and 1 are
    the two values, anything else stores [true] and fails. *)
Definition get_bool (old : bool) : IO bool := fun w =>
  let (i, ok) := sentry false (cin w) in
  if ok then
    let '(l, failed, r) := extract_int LONG_MIN LONG_MAX (buf i) in
    if l =? 0 then (false, mk_world (mk_istream r (is_empty r) failed) (cout w))
    else if l =? 1 then (true, mk_world (mk_istream r (is_empty r) failed) (cout w))
    else (true, mk_world (mk_istream r (is_empty r) true) (cout w))
  else (old, mk_world i (cout w)).

(** The conversions between [float] and text belong to the locale's
    [num_get] and [num_put] facets, not to this program: they are an
    interface.  [num_get_float] is given the unread input (white space
    skipped) and returns the value stored, whether the conversion failed,
    and the unread rest; [num_put_float] is the text of [cout << f]. *)
Class NumFacets := {
  num_get_float : string -> float * bool * string;
  num_put_float : float -> string
}.

Section FloatIO.
Context `{NumFacets}.

(** [cin >> f] for a [float]. *)
Definition get_float (old : float) : IO float := fun w =>
  let (i, ok) := sentry false (cin w) in
  if ok then
    let '(v, failed, r) := num_get_float (buf i) in
    (v, mk_world (mk_istream r (is_empty r) failed) (cout w))
  else (old, mk_world i (cout w)).

Definition put_float (f : float) : IO unit := put (num_put_float f).

End FloatIO.

(** ** passengers.h / passengers.cpp *)

(** [passengers::FindEntry] applies [==] to a [passenger] and an [int] and
    [<<] to [cout] and a [passenger]; the repository declares neither
    operator, so both are taken as given. *)
Class PassengerOperators := {
  eq_int : passenger.t -> Z -> bool;
  put_passenger : passenger.t -> string
}.

(** Modelled from the spec: the [==] that [FindEntry] needs and the sources
    do not define.  The spec gives the lookup as "return the record whose id
    equals the argument", so a record equals an [int] when its id does. *)
Definition by_id (render : passenger.t -> string) : PassengerOperators :=
  {| eq_int := fun p n => passenger.getID p =? n;
     put_passenger := render |}.

(** [std::find(first, last, value)]: the position of the first element equal
    to [value].  A position is the range from it to [last]; the empty range
    is [last] itself. *)
Fixpoint std_find {A B : Type} (eq : A -> B -> bool) (first : list A)
    (value : B) : list A :=
  match first with
  | [] => []
  | x :: next => if eq x value then first else std_find eq next value
  end.

Module passengers.

Record t := mk {
  TotalPassengers : list passenger.t;
  ListName : string
}.

(** [passengers::passengers()] *)
Definition default : t := mk [] "".

(** [passengers::passengers(string name)] *)
Definition make (name : string) : t := mk [] name.

(** [void passengers::Add(passenger p)] *)
Definition Add (this : t) (p : passenger.t) : t :=
  mk (TotalPassengers this ++ [p])%list (ListName this).

(** The member functions below are not [const]: each returns the object
    as it is after the call. *)

(** [void passengers::PrintSize()] *)
Definition PrintSize (this : t) : IO t :=
  if negb (Nat.eqb (List.length (TotalPassengers this)) 0) then
    put "The size is: " ;; put_size (List.length (TotalPassengers this)) ;; put endl ;;
    ret this
  else
    put ("Vector is empty." ++ endl) ;;
    ret this.

Section Printing.
Context `{NumFacets}.

(** The body of the [for] loop of [PrintAll], at [*it = p]. *)
Definition PrintAll_body (p : passenger.t) : IO unit :=
  put "Name: " ;; put (passenger.getName p) ;; put endl ;;
  put "ID: " ;; put_int (passenger.getID p) ;; put endl ;;
  put "Payment: " ;; put (passenger.getPayment p) ;; put endl ;;
  put "Handicap: " ;;
  (if Bool.eqb (passenger.getHandicap p) false then
     put ("Not Handicap Capable " ++ endl)
   else
     put ("Handicap Capable " ++ endl)) ;;
  put "Ratings: " ;; put_float (passenger.getRating p) ;; put endl ;;
  (if Bool.eqb (passenger.getPets p) false then
     put ("Not Pet Capable " ++ endl)
   else
     put ("Pet Capable " ++ endl) ;;
     put endl).

(** [for (it = begin(); it != end(); it++, i++)]: [it] is the range
    from the current position to [end()], [i] an [unsigned] counter. *)
Fixpoint PrintAll_loop (it : list passenger.t) (i : Z) : IO unit :=
  match it with
  | [] => ret tt
  | p :: next =>
      PrintAll_body p ;;
      PrintAll_loop next ((i + 1) mod 2 ^ 32)
  end.

(** [void passengers::PrintAll()] *)
Definition PrintAll (this : t) : IO t :=
  PrintAll_loop (TotalPassengers this) 0 ;;
  ret this.

End Printing.

(** [void passengers::FindEntry(int n)].  [*it] with [it == end()] has
    no defined behaviour: the result is then [None]. *)
Definition FindEntry `{PassengerOperators} (this : t) (n : Z) : option (IO t) :=
  let it := std_find eq_int (TotalPassengers this) n in
  match it with
  | [] => None
  | p :: _ => Some (put (put_passenger p) ;; put endl ;; ret this)
  end.

(** The public interface after construction, as calls. *)
Inductive call :=
| call_Add (p : passenger.t)
| call_PrintSize
| call_PrintAll
| call_FindEntry (n : Z).

Section Calls.
Context `{NumFacets} `{PassengerOperators}.

Definition perform (c : call) (this : t) : option (IO t) :=
  match c with
  | call_Add p => Some (ret (Add this p))
  | call_PrintSize => Some (PrintSize this)
  | call_PrintAll => Some (PrintAll this)
  | call_FindEntry n => FindEntry this n
  end.

(** A sequence of calls on one object, [None] once a call has no
    defined behaviour. *)
Fixpoint perform_all (cs : list call) (this : t) (w : world)
    : option (t * world) :=
  match cs with
  | [] => Some (this, w)
  | c :: cs' =>
      match perform c this with
      | Some m => let (this', w') := m w in perform_all cs' this' w'
      | None => None
      end
  end.

End Calls.

(** The records [Add] was called with, in call order. *)
Fixpoint added (cs : list call) : list passenger.t :=
  match cs with
  | [] => []
  | call_Add p :: cs' => p :: added cs'
  | _ :: cs' => added cs'
  end.

End passengers.

(** ** drivers.h *)

Module drivers.

Record t := mk {
  TotalDrivers : list driver.t;
  ListName : string
}.

(** Modelled from the spec: [drivers::drivers(string)] is declared in
    drivers.h and defined in no file under src/ (drivers.cpp is missing).
    The spec has a collection "created empty with a name". *)
Definition make (name : string) : t := mk [] name.

(** Modelled from the spec: [drivers::Add(driver)], declared in drivers.h,
    body missing.  The spec: "Add(record): appends to the end; no
    validation, no duplicate-id check; always succeeds." *)
Definition Add (this : t) (driver1 : driver.t) : t :=
  mk (TotalDrivers this ++ [driver1])%list (ListName this).

(** Modelled from the spec: the count behind [drivers::PrintSize()],
    declared in drivers.h, body missing.  The spec: "Count(): returns
    current number of records; side-effect-free." *)
Definition Count (this : t) : nat := List.length (TotalDrivers this).

(** Modelled from the spec: [void drivers::PrintSize()] reports [Count]
    on the console and leaves the object as it is. *)
Definition PrintSize (this : t) : IO t :=
  put_size (Count this) ;; put endl ;; ret this.

Inductive call :=
| call_Add (d : driver.t)
| call_PrintSize.

Definition perform (c : call) (this : t) : IO t :=
  match c with
  | call_Add d => ret (Add this d)
  | call_PrintSize => PrintSize this
  end.

Fixpoint perform_all (cs : list call) (this : t) : IO t :=
  match cs with
  | [] => ret this
  | c :: cs' => this' <- perform c this ;; perform_all cs' this'
  end.

Fixpoint added (cs : list call) : list driver.t :=
  match cs with
  | [] => []
  | call_Add d :: cs' => d :: added cs'
  | _ :: cs' => added cs'
  end.

End drivers.

(** ** drivermain.cpp *)

Module drivermain.

Definition PrintMenu : IO unit :=
  put ("MENU " ++ endl) ;;
  put ("a - Add item" ++ endl) ;;
  put ("d - remove  item" ++ endl) ;;
  put ("f - get num items" ++ endl).

Section Menu.
Context `{NumFacets}.

(** [void ExecuteMenu(char option, drivers& ListOfDrivers)].  The locals
    [d_id] ... [notes] have the names and types of the members of a
    [driver], so one [driver.t] holds them; [auto] gives what the
    uninitialised scalars hold on entry (the three strings start empty).
    The result is [ListOfDrivers] after the call.

    The setters read a scalar local after its extraction.  On a run where
    an extraction is skipped, because [cin] has failed, the source reads a
    local that was never assigned, which has no defined behaviour: the
    definition stands for the runs on which [cin] has not failed by the end
    of the flow, and there its result does not depend on [auto]. *)
Definition ExecuteMenu (option : ascii) (ListOfDrivers : drivers.t)
    (auto : driver.t) : IO drivers.t :=
  let d_id := driver.d_id auto in
  let d_name := "" in
  let v_capacity := driver.v_capacity auto in
  let handicap := driver.handicap auto in
  let v_type := "" in
  let d_rating := driver.d_rating auto in
  let v_available := driver.v_available auto in
  let pets := driver.pets auto in
  let notes := "" in
  let driver1 := driver.default in
  if Ascii.eqb option "a" then
    cin_ignore ;;
    put ("Add to drivers" ++ endl) ;;
    put "Enter ID: " ;;
    d_id <- get_int d_id ;;
    cin_ignore ;;
    put "Enter Name: " ;;
    d_name <- getline d_name ;;
    put "Veichle Capacity: " ;;
    v_capacity <- get_int v_capacity ;;
    cin_ignore ;;
    put ("Handicap Friendly(1 for yes, 0 for no)" ++ endl) ;;
    handicap <- get_bool handicap ;;
    cin_ignore ;;
    put "Type of Car: " ;;
    v_type <- getline v_type ;;
    put "Rating of driver: " ;;
    d_rating <- get_float d_rating ;;
    put endl ;;
    cin_ignore ;;
    put "Available: " ;;
    v_available <- get_bool v_available ;;
    put endl ;;
    cin_ignore ;;
    put ("Pets allowed?" ++ endl) ;;
    pets <- get_bool pets ;;
    cin_ignore ;;
    put ("Any notes?" ++ endl) ;;
    notes <- getline notes ;;
    let driver1 := driver.setID driver1 d_id in
    let driver1 := driver.setName driver1 d_name in
    let driver1 := driver.setCapacity driver1 v_capacity in
    let driver1 := driver.setHandicap driver1 handicap in
    let driver1 := driver.setType driver1 v_type in
    let driver1 := driver.setRating driver1 d_rating in
    let driver1 := driver.setAvailable driver1 v_available in
    let driver1 := driver.setPets driver1 pets in
    let driver1 := driver.setNotes driver1 notes in
    let ListOfDrivers := drivers.Add ListOfDrivers driver1 in
    put endl ;;
    ret ListOfDrivers
  else if Ascii.eqb option "f" then
    drivers.PrintSize ListOfDrivers
  else
    ret ListOfDrivers.

(** One turn of the [while (c != 'q')] loop of [main], on [(c, List)]. *)
Definition main_turn (auto : driver.t) (s : ascii * drivers.t)
    : IO (ascii * drivers.t) :=
  let (c, List) := s in
  put ("Option choice:" ++ endl) ;;
  c <- get_char c ;;
  if (Ascii.eqb c "a" || Ascii.eqb c "d" || Ascii.eqb c "f")%bool then
    List <- ExecuteMenu c List auto ;;
    PrintMenu ;;
    ret (c, List)
  else
    ret (c, List).

(** [int main()]: the value returned, with [List] as it is then. *)
Definition main (fuel : nat) (auto : driver.t) : Partial (Z * drivers.t) :=
  name <~ lift (put ("List Name:" ++ endl) ;; getline "") ;;
  let List := drivers.make name in
  let c := " "%char in
  u <~ lift PrintMenu ;;
  s <~ while_do fuel (fun s => negb (Ascii.eqb (fst s) "q"))
         (fun s => lift (main_turn auto s)) (c, List) ;;
  lift (ret (0, snd s)).

End Menu.

End drivermain.

(** ** passengersmain.cpp *)

Module passengersmain.

Definition PrintMenu : IO unit :=
  put ("MENU " ++ endl) ;;
  put ("a - Add item" ++ endl) ;;
  put ("d - remove  item" ++ endl) ;;
  put ("f - get num items" ++ endl) ;;
  put ("P - print all" ++ endl).

Section Menu.
Context `{NumFacets}.

(** [void ExecuteMenu(char option, passengers& ListOfPassengers)].  The
    locals [name] ... [pets] are held in one [passenger.t]; [auto] gives
    what the uninitialised scalars hold on entry and [indet] what the
    storage of [passenger p] holds.

    The setters read a scalar local after its extraction.  On a run where
    an extraction is skipped, because [cin] has failed, the source reads a
    local that was never assigned, which has no defined behaviour: the
    definition stands for the runs on which [cin] has not failed by the end
    of the flow, and there its result does not depend on [auto] or
    [indet]. *)
Definition ExecuteMenu (option : ascii) (ListOfPassengers : passengers.t)
    (auto indet : passenger.t) : IO passengers.t :=
  let name := "" in
  let id := passenger.id auto in
  let p_method := "" in
  let handicap := passenger.handicap auto in
  let rating := passenger.rating auto in
  let pets := passenger.pets auto in
  let p := passenger.default indet in
  if Ascii.eqb option "a" then
    cin_ignore ;;
    put ("Add To Passengers" ++ endl) ;;
    put "Enter Name: " ;;
    name <- getline name ;;
    put endl ;;
    put "Enter ID: " ;;
    id <- get_int id ;;
    put endl ;;
    cin_ignore ;;
    put "Payment Method: " ;;
    p_method <- getline p_method ;;
    put endl ;;
    put "Handicap: (1 for yes, 0 for no): " ;;
    handicap <- get_bool handicap ;;
    put endl ;;
    put "Rating: " ;;
    rating <- get_float rating ;;
    put endl ;;
    cin_ignore ;;
    put "Pets: " ;;
    pets <- get_bool pets ;;
    put endl ;;
    cin_ignore ;;
    let p := passenger.setID p id in
    let p := passenger.setName p name in
    let p := passenger.setPaymentMethod p p_method in
    let p := passenger.setHandicap p handicap in
    let p := passenger.setRating p rating in
    let p := passenger.setPets p pets in
    let ListOfPassengers := passengers.Add ListOfPassengers p in
    put endl ;;
    ret ListOfPassengers
  else if Ascii.eqb option "f" then
    passengers.PrintSize ListOfPassengers
  else if Ascii.eqb option "p" then
    passengers.PrintAll ListOfPassengers
  else
    ret ListOfPassengers.

Definition main_turn (auto indet : passenger.t) (s : ascii * passengers.t)
    : IO (ascii * passengers.t) :=
  let (c, List) := s in
  put ("Option Choice" ++ endl) ;;
  c <- get_char c ;;
  if (Ascii.eqb c "a" || Ascii.eqb c "d" || Ascii.eqb c "f"
      || Ascii.eqb c "p")%bool then
    List <- ExecuteMenu c List auto indet ;;
    PrintMenu ;;
    ret (c, List)
  else
    ret (c, List).

Definition main (fuel : nat) (auto indet : passenger.t)
    : Partial (Z * passengers.t) :=
  let name := "Passengers List" in
  u <~ lift (put name ;; put endl) ;;
  let List := passengers.make name in
  let c := " "%char in
  u <~ lift PrintMenu ;;
  s <~ while_do fuel (fun s => negb (Ascii.eqb (fst s) "q"))
         (fun s => lift (main_turn auto indet s)) (c, List) ;;
  lift (ret (0, snd s)).

End Menu.

End passengersmain.

(** ** main.cpp *)

Module main_cpp.

Definition PrintMenu : IO unit :=
  put ("MENU" ++ endl) ;;
  put ("A - Add Item" ++ endl) ;;
  put ("E - Edit" ++ endl) ;;
  put ("D - Delete" ++ endl) ;;
  put ("F - Find" ++ endl) ;;
  put ("S - Print Single Entity" ++ endl) ;;
  put ("P - Print All Entries in Collection" ++ endl).

(** The locals of [ExecuteMenu]. *)
Record locals := mk_locals {
  c : ascii;
  tempNum : Z;
  tempStr : string;
  tempBool : bool;
  tempFloat : float;
  d : driver.t;
  p : passenger.t
}.

Definition with_c (l : locals) (v : ascii) : locals :=
  mk_locals v (tempNum l) (tempStr l) (tempBool l) (tempFloat l) (d l) (p l).
Definition with_tempNum (l : locals) (v : Z) : locals :=
  mk_locals (c l) v (tempStr l) (tempBool l) (tempFloat l) (d l) (p l).
Definition with_tempStr (l : locals) (v : string) : locals :=
  mk_locals (c l) (tempNum l) v (tempBool l) (tempFloat l) (d l) (p l).
Definition with_tempBool (l : locals) (v : bool) : locals :=
  mk_locals (c l) (tempNum l) (tempStr l) v (tempFloat l) (d l) (p l).
Definition with_tempFloat (l : locals) (v : float) : locals :=
  mk_locals (c l) (tempNum l) (tempStr l) (tempBool l) v (d l) (p l).
Definition with_d (l : locals) (v : driver.t) : locals :=
  mk_locals (c l) (tempNum l) (tempStr l) (tempBool l) (tempFloat l) v (p l).
Definition with_p (l : locals) (v : passenger.t) : locals :=
  mk_locals (c l) (tempNum l) (tempStr l) (tempBool l) (tempFloat l) (d l) v.

(** The declarations at the top of [ExecuteMenu]; [indet] is what the
    storage of [passenger p] holds. *)
Definition entry (indet : passenger.t) : locals :=
  {| c := " "%char;
     tempNum := 0;
     tempStr := " ";
     tempBool := false;
     tempFloat := float_zero;
     d := driver.default;
     p := passenger.default indet |}.

(** *** The prompt loops

    The five yes/no loops have one shape and differ in the prompt and in
    the setter called: [store l b] is [l] after [x.setF(tempBool)]. *)
Definition yes_no_body (prompt : string) (store : locals -> bool -> locals)
    (l : locals) : IO locals :=
  put prompt ;;
  s <- get_string (tempStr l) ;;
  let l := with_tempStr l s in
  if String.eqb (tempStr l) "yes" then
    let l := with_tempBool l true in
    ret (store l (tempBool l))
  else if String.eqb (tempStr l) "no" then
    let l := with_tempBool l false in
    ret (store l (tempBool l))
  else
    put "Please input yes or no" ;;
    ret l.

(** [while (tempStr != "yes" || tempStr != "no")] *)
Definition yes_no_cond (l : locals) : bool :=
  (negb (String.eqb (tempStr l) "yes") || negb (String.eqb (tempStr l) "no"))%bool.

Definition driver_handicap_body : locals -> IO locals :=
  yes_no_body "Handicap Capable, Please Enter yes or no: "
    (fun l b => with_d l (driver.setHandicap (d l) b)).
Definition driver_available_body : locals -> IO locals :=
  yes_no_body "Available, Please Enter yes or no: "
    (fun l b => with_d l (driver.setAvailable (d l) b)).
Definition driver_pets_body : locals -> IO locals :=
  yes_no_body "Pets Allowed, Please Enter yes or no: "
    (fun l b => with_d l (driver.setPets (d l) b)).
Definition passenger_handicap_body : locals -> IO locals :=
  yes_no_body "Handicapped, Please Enter yes or no: "
    (fun l b => with_p l (passenger.setHandicap (p l) b)).
Definition passenger_pets_body : locals -> IO locals :=
  yes_no_body "Pets with you, Please Enter yes or no: "
    (fun l b => with_p l (passenger.setPets (p l) b)).

(** The vehicle type loop. *)
Definition type_body (l : locals) : IO locals :=
  put "Please enter the veichle type of: compact, 2dr, sedan, 4dr, SUV, van, other" ;;
  s <- get_string (tempStr l) ;;
  let l := with_tempStr l s in
  ret (with_d l (driver.setType (d l) (tempStr l))).

Definition type_cond (l : locals) : bool :=
  (negb (String.eqb (tempStr l) "compact")
   || negb (String.eqb (tempStr l) "2dr")
   || negb (String.eqb (tempStr l) "sedan")
   || negb (String.eqb (tempStr l) "4dr")
   || negb (String.eqb (tempStr l) "SUV")
   || negb (String.eqb (tempStr l) "van")
   || negb (String.eqb (tempStr l) "other"))%bool.

(** The payment method loop. *)
Definition payment_body (l : locals) : IO locals :=
  put "Enter Payment Method(cash, card, debit): " ;;
  s <- get_string (tempStr l) ;;
  let l := with_tempStr l s in
  ret (with_p l (passenger.setPaymentMethod (p l) (tempStr l))).

Definition payment_cond (l : locals) : bool :=
  (negb (String.eqb (tempStr l) "cash")
   || negb (String.eqb (tempStr l) "card")
   || negb (String.eqb (tempStr l) "debit"))%bool.

(** [while (tempFloat < 1 || tempFloat > 5)] *)
Definition rating_cond (l : locals) : bool :=
  (float_lt (tempFloat l) (float_of_int 1)
   || float_lt (float_of_int 5) (tempFloat l))%bool.

Section Menu.
Context `{NumFacets}.

(** The two rating loops. *)
Definition driver_rating_body (l : locals) : IO locals :=
  put "Driver Rating Between 1 and 5: " ;;
  f <- get_float (tempFloat l) ;;
  let l := with_tempFloat l f in
  ret (with_d l (driver.setRating (d l) (tempFloat l))).

Definition passenger_rating_body (l : locals) : IO locals :=
  put "Passenger Rating Between 1 and 5: " ;;
  f <- get_float (tempFloat l) ;;
  let l := with_tempFloat l f in
  ret (with_p l (passenger.setRating (p l) (tempFloat l))).

(** [case 'A':] of the inner switch, up to the first loop. *)
Definition driver_head (l : locals) : IO locals :=
  cin_ignore ;;
  put "Enter ID: " ;;
  n <- get_int (tempNum l) ;;
  let l := with_tempNum l n in
  let l := with_d l (driver.setID (d l) (tempNum l)) in
  cin_ignore ;;
  put "Enter Name: " ;;
  s <- getline (tempStr l) ;;
  let l := with_tempStr l s in
  let l := with_d l (driver.setName (d l) (tempStr l)) in
  cin_ignore ;;
  put "Enter Vehicle Capacity: " ;;
  n <- get_int (tempNum l) ;;
  let l := with_tempNum l n in
  let l := with_d l (driver.setCapacity (d l) (tempNum l)) in
  cin_ignore ;;
  ret l.

(** [case 'A':] of the inner switch, after the last loop. *)
Definition driver_tail (l : locals) : IO locals :=
  cin_ignore ;;
  put "Important Notes: " ;;
  s <- getline (tempStr l) ;;
  let l := with_tempStr l s in
  let l := with_d l (driver.setNotes (d l) (tempStr l)) in
  cin_ignore ;;
  ret l.

Definition add_driver (fuel : nat) (ListOfDrivers : drivers.t) (l : locals)
    : Partial drivers.t :=
  l <~ lift (driver_head l) ;;
  l <~ do_while fuel driver_handicap_body yes_no_cond l ;;
  l <~ lift (cin_ignore ;; ret l) ;;
  l <~ do_while fuel type_body type_cond l ;;
  l <~ lift (cin_ignore ;; ret l) ;;
  l <~ do_while fuel driver_rating_body rating_cond l ;;
  l <~ lift (cin_ignore ;; ret l) ;;
  l <~ do_while fuel driver_available_body yes_no_cond l ;;
  l <~ lift (cin_ignore ;; ret l) ;;
  l <~ do_while fuel driver_pets_body yes_no_cond l ;;
  l <~ lift (driver_tail l) ;;
  let ListOfDrivers := drivers.Add ListOfDrivers (d l) in
  lift (put endl ;; ret ListOfDrivers).

(** [case 'B':] of the inner switch, up to the first loop. *)
Definition passenger_head (l : locals) : IO locals :=
  cin_ignore ;;
  put "Enter Name: " ;;
  s <- getline (tempStr l) ;;
  let l := with_tempStr l s in
  let l := with_p l (passenger.setName (p l) (tempStr l)) in
  cin_ignore ;;
  put "Enter ID: " ;;
  n <- get_int (tempNum l) ;;
  let l := with_tempNum l n in
  let l := with_p l (passenger.setID (p l) (tempNum l)) in
  cin_ignore ;;
  ret l.

Definition add_passenger (fuel : nat) (ListOfPassengers : passengers.t)
    (l : locals) : Partial passengers.t :=
  l <~ lift (passenger_head l) ;;
  l <~ do_while fuel payment_body payment_cond l ;;
  l <~ lift (cin_ignore ;; ret l) ;;
  l <~ do_while fuel passenger_handicap_body yes_no_cond l ;;
  l <~ lift (cin_ignore ;; ret l) ;;
  l <~ do_while fuel passenger_rating_body rating_cond l ;;
  l <~ lift (cin_ignore ;; ret l) ;;
  l <~ do_while fuel passenger_pets_body yes_no_cond l ;;
  l <~ lift (cin_ignore ;; ret l) ;;
  let ListOfPassengers := passengers.Add ListOfPassengers (p l) in
  lift (put endl ;; ret ListOfPassengers).

(** [void ExecuteMenu(char option, drivers& ListOfDrivers,
    passengers& ListOfPassengers)]: the two collections after the call. *)
Definition ExecuteMenu (fuel : nat) (option : ascii)
    (ListOfDrivers : drivers.t) (ListOfPassengers : passengers.t)
    (indet : passenger.t) : Partial (drivers.t * passengers.t) :=
  let l := entry indet in
  if Ascii.eqb (toupper option) "A" then
    l <~ lift (cin_ignore ;;
               put ("Choose what list to add too." ++ endl) ;;
               put ("A. Drivers" ++ endl) ;;
               put ("B. Passengers" ++ endl) ;;
               put ("C. Rides" ++ endl) ;;
               ch <- get_char (c l) ;;
               ret (with_c l ch)) ;;
    if Ascii.eqb (toupper (c l)) "A" then
      ListOfDrivers <~ add_driver fuel ListOfDrivers l ;;
      lift (ret (ListOfDrivers, ListOfPassengers))
    else if Ascii.eqb (toupper (c l)) "B" then
      ListOfPassengers <~ add_passenger fuel ListOfPassengers l ;;
      lift (ret (ListOfDrivers, ListOfPassengers))
    else
      lift (ret (ListOfDrivers, ListOfPassengers))
  else
    lift (ret (ListOfDrivers, ListOfPassengers)).

Definition main_turn (fuel : nat) (indet : passenger.t)
    (s : ascii * (drivers.t * passengers.t))
    : Partial (ascii * (drivers.t * passengers.t)) :=
  let '(c, (d_list, p_list)) := s in
  c <~ lift (put ("Option Choice" ++ endl) ;; get_char c) ;;
  if (Ascii.eqb c "A" || Ascii.eqb c "d" || Ascii.eqb c "f"
      || Ascii.eqb c "p")%bool then
    lists <~ ExecuteMenu fuel c d_list p_list indet ;;
    lift (PrintMenu ;; ret (c, lists))
  else
    lift (ret (c, (d_list, p_list))).

Definition main (fuel : nat) (indet : passenger.t)
    : Partial (Z * (drivers.t * passengers.t)) :=
  let name := "Passengers List" in
  let name2 := "Drivers List" in
  u <~ lift (put name ;; put endl) ;;
  let p_list := passengers.make name in
  let d_list := drivers.make name2 in
  let c := " "%char in
  u <~ lift PrintMenu ;;
  s <~ while_do fuel (fun s => negb (Ascii.eqb (fst s) "q"))
         (main_turn fuel indet) (c, (d_list, p_list)) ;;
  lift (ret (0, snd s)).

End Menu.

End main_cpp.

(** ** One locale, to run the programs on concrete input

    [num_get] here reads a decimal literal without exponent,
    [sign digits . digits], as the quotient of the digits by the power of
    ten, rounded to nearest even in binary32 (the correctly rounded value
    while both are below [2 ^ 24]); [num_put] writes a finite value as
    [mantissa p exponent]. *)

Definition read_decimal (s : string) : float * bool * string :=
  let '(neg, s1) :=
    match s with
    | String "-"%char r => (true, r)
    | String "+"%char r => (false, r)
    | _ => (false, s)
    end in
  let (ip, r1) := span_digits s1 in
  let (fp, r2) :=
    match r1 with
    | String "."%char r => span_digits r
    | _ => (EmptyString, r1)
    end in
  if (is_empty ip && is_empty fp)%bool then (float_zero, true, r2)
  else
    let n := digits_value 0 (ip ++ fp) in
    let num := binary_normalize float_prec float_emax (if neg then - n else n) 0 neg in
    let den := float_of_int (10 ^ Z.of_nat (String.length fp)) in
    (SFdiv float_prec float_emax num den, false, r2).

Definition write_binary (f : float) : string :=
  match f with
  | S754_zero s => if s then "-0" else "0"
  | S754_infinity s => if s then "-inf" else "inf"
  | S754_nan => "nan"
  | S754_finite s m e =>
      (if s then "-" else "")
      ++ NilEmpty.string_of_uint (Pos.to_uint m) ++ "p"
      ++ NilEmpty.string_of_int (Z.to_int e)
  end.

Definition sample_facets : NumFacets :=
  {| num_get_float := read_decimal; num_put_float := write_binary |}.

(** A console with [input] unread and nothing written. *)
Definition console (input : string) : world :=
  mk_world (mk_istream input false false) "".

(** A line of input: the text and its newline. *)
Definition line (s : string) : string := s ++ endl.

(** Whether a text has a decimal digit. *)
Fixpoint has_digit (s : string) : bool :=
  match s with
  | EmptyString => false
  | String c s' => (isdigit c || has_digit s')%bool
  end.

(** ** Vocabulary of the properties *)

(** What a pure writer does: the input is untouched and a text that does
    not depend on the console is appended. *)
Definition writes {A : Type} (m : IO A) (a : A) (text : string) : Prop :=
  forall w, m w = (a, mk_world (cin w) (cout w ++ text)).

(** The record whose every field is zero-valued: 0, 0.0, false and the
    empty text. *)
Definition driver_zero : driver.t :=
  driver.make 0 "" 0 false "" float_zero false false "".

(** The decimal digits of a size. *)
Definition decimal (n : nat) : string := NilEmpty.string_of_uint (Nat.to_uint n).

(** The block of text of one record in a listing. *)
Definition entry_text `{NumFacets} (p : passenger.t) : string :=
  "Name: " ++ passenger.name p ++ endl
  ++ "ID: " ++ NilEmpty.string_of_int (Z.to_int (passenger.id p)) ++ endl
  ++ "Payment: " ++ passenger.p_method p ++ endl
  ++ "Handicap: "
  ++ (if passenger.handicap p then "Handicap Capable " else "Not Handicap Capable ")
  ++ endl
  ++ "Ratings: " ++ num_put_float (passenger.rating p) ++ endl
  ++ (if passenger.pets p then "Pet Capable " ++ endl ++ endl
      else "Not Pet Capable " ++ endl).

(** The listing of a sequence of records: their blocks, one after another. *)
Definition listing `{NumFacets} (rs : list passenger.t) : string :=
  String.concat "" (map entry_text rs).

(** The values a [passenger] object's storage is taken to hold in the runs
    below. *)
Definition zeroes : passenger.t := passenger.make "" 0 "" false float_zero false.

(** The binary32 values of the literals 0.5 and 5.5. *)
Definition float_0_5 : float := S754_finite false 8388608 (-24).
Definition float_5_5 : float := S754_finite false 11534336 (-21).

(** The input has failed: [failbit] is set.  No statement of the programs
    clears it. *)
Definition failed (w : world) : Prop := failbit (cin w) = true.

(** On a failed input the statement [m] extracts nothing: it yields [a] and
    leaves [cin] as it is. *)
Definition skipped {A : Type} (m : IO A) (a : A) : Prop :=
  forall w, failed w -> fst (m w) = a /\ cin (snd (m w)) = cin w.

(** Two runs agree when the first leaves [cin] unfailed: they yield the
    same value. *)
Definition agree_if_unfailed {A : Type} (r1 r2 : A * world) : Prop :=
  failbit (cin (snd r1)) = false -> fst r1 = fst r2.

(** Other values for the uninitialised locals and the object storage than
    [zeroes]. *)
Definition junk_passenger : passenger.t :=
  passenger.make "junk" 170 "junk" true float_5_5 true.
Definition junk_driver : driver.t :=
  driver.make 170 "junk" 170 true "junk" float_5_5 true true "junk".

(** A console whose input is still good, with [input] unread and [out]
    written. *)
Definition typing (input out : string) : world :=
  mk_world (mk_istream input false false) out.

(** Whether the character [c] occurs in a text. *)
Fixpoint occurs (c : ascii) (s : string) : bool :=
  match s with
  | EmptyString => false
  | String x s' => (Ascii.eqb x c || occurs c s')%bool
  end.

(** A [bool] as it is typed at a 1/0 prompt. *)
Definition bit (b : bool) : string := if b then "1" else "0".

(** * Properties *)

(** ** Text and console lemmas *)

Lemma append_empty_r (s : string) : s ++ "" = s.
Proof. induction s as [|c s IH]; simpl; [reflexivity | now rewrite IH]. Qed.

Lemma append_assoc (s1 s2 s3 : string) : (s1 ++ s2) ++ s3 = s1 ++ s2 ++ s3.
Proof. induction s1 as [|c s1 IH]; simpl; [reflexivity | now rewrite IH]. Qed.

Lemma world_eta (w : world) : mk_world (cin w) (cout w) = w.
Proof. now destruct w. Qed.

Lemma writes_ret {A : Type} (a : A) : writes (ret a) a "".
Proof. intros w. unfold ret. now rewrite append_empty_r, world_eta. Qed.

Lemma writes_put (s : string) : writes (put s) tt s.
Proof. intros w. reflexivity. Qed.

Lemma writes_bind {A B : Type} (m : IO A) (k : A -> IO B) a b s1 s2 :
  writes m a s1 -> writes (k a) b s2 -> writes (bind m k) b (s1 ++ s2).
Proof.
  intros Hm Hk w. unfold bind. rewrite Hm, Hk. simpl.
  now rewrite append_assoc.
Qed.

Lemma writes_put_size (n : nat) :
  writes (put_size n) tt (NilEmpty.string_of_uint (Nat.to_uint n)).
Proof. apply writes_put. Qed.

Lemma writes_put_int (z : Z) :
  writes (put_int z) tt (NilEmpty.string_of_int (Z.to_int z)).
Proof. apply writes_put. Qed.

Lemma writes_put_float `{NumFacets} (f : float) :
  writes (put_float f) tt (num_put_float f).
Proof. apply writes_put. Qed.

Ltac writes_steps :=
  repeat first
    [ eapply writes_bind
    | apply writes_put_size | apply writes_put_int | apply writes_put_float
    | apply writes_put | apply writes_ret ].

(** ** Records *)

(** C9.  The setters and the parameterized constructors store what they are
    given, unchanged and unchecked: for every record and every value, a
    setter followed by the getter of the same field returns the value, for
    each of the nine fields of a driver and the six fields of a passenger,
    and each getter returns the constructor's argument. *)
Theorem setter_then_getter_returns_value :
  forall (dr : driver.t) (pa : passenger.t) (i : Z) (s : string) (b : bool)
         (f : float),
    (driver.getID (driver.setID dr i) = i
     /\ driver.getName (driver.setName dr s) = s
     /\ driver.getCapacity (driver.setCapacity dr i) = i
     /\ driver.getHandicap (driver.setHandicap dr b) = b
     /\ driver.getType (driver.setType dr s) = s
     /\ driver.getRating (driver.setRating dr f) = f
     /\ driver.getAvailable (driver.setAvailable dr b) = b
     /\ driver.getPets (driver.setPets dr b) = b
     /\ driver.getNotes (driver.setNotes dr s) = s)
    /\ (passenger.getName (passenger.setName pa s) = s
        /\ passenger.getID (passenger.setID pa i) = i
        /\ passenger.getPayment (passenger.setPaymentMethod pa s) = s
        /\ passenger.getHandicap (passenger.setHandicap pa b) = b
        /\ passenger.getRating (passenger.setRating pa f) = f
        /\ passenger.getPets (passenger.setPets pa b) = b)
    /\ (forall i2 s2 s3 b2 b3,
          let x := driver.make i s i2 b s2 f b2 b3 s3 in
          driver.getID x = i /\ driver.getName x = s
          /\ driver.getCapacity x = i2 /\ driver.getHandicap x = b
          /\ driver.getType x = s2 /\ driver.getRating x = f
          /\ driver.getAvailable x = b2 /\ driver.getPets x = b3
          /\ driver.getNotes x = s3)
    /\ (forall s2 b2,
          let x := passenger.make s i s2 b f b2 in
          passenger.getName x = s /\ passenger.getID x = i
          /\ passenger.getPayment x = s2 /\ passenger.getHandicap x = b
          /\ passenger.getRating x = f /\ passenger.getPets x = b2).
Proof.
  intros dr pa i s b f. repeat split.
Qed.

(** A setter changes its own field only. *)
Lemma driver_setRating_frame (dr : driver.t) (f : float) :
  driver.setRating dr f =
  driver.make (driver.getID dr) (driver.getName dr) (driver.getCapacity dr)
    (driver.getHandicap dr) (driver.getType dr) f (driver.getAvailable dr)
    (driver.getPets dr) (driver.getNotes dr).
Proof. reflexivity. Qed.

Lemma passenger_setRating_frame (pa : passenger.t) (f : float) :
  passenger.setRating pa f =
  passenger.make (passenger.getName pa) (passenger.getID pa)
    (passenger.getPayment pa) (passenger.getHandicap pa) f
    (passenger.getPets pa).
Proof. reflexivity. Qed.

(** C7, as stated, fails on the driver: its default constructor gives the
    name and two more texts a placeholder, so the default driver is not the
    zero-valued record. *)
Lemma driver_default_is_not_zero_valued :
  driver.default <> driver_zero
  /\ driver.getName driver.default = "None".
Proof.
  split; [| reflexivity].
  intros E. apply (f_equal driver.getName) in E. discriminate E.
Qed.

(** C7, amended.  A default-constructed driver has id 0, capacity 0, rating
    0.0, the three booleans false, and the placeholder texts "None" for the
    name and "Blank" for the vehicle type and the notes.  A
    default-constructed passenger has an empty name and an empty payment
    method. *)
Theorem default_construction :
  (driver.getID driver.default = 0
   /\ driver.getCapacity driver.default = 0
   /\ driver.getRating driver.default = float_zero
   /\ driver.getHandicap driver.default = false
   /\ driver.getAvailable driver.default = false
   /\ driver.getPets driver.default = false
   /\ driver.getName driver.default = "None"
   /\ driver.getType driver.default = "Blank"
   /\ driver.getNotes driver.default = "Blank")
  /\ forall indet : passenger.t,
       passenger.getName (passenger.default indet) = ""
       /\ passenger.getPayment (passenger.default indet) = "".
Proof.
  split; [repeat split | intros indet; split; reflexivity].
Qed.

(** ** Collections: adding and counting *)

Lemma passengers_adds (rs : list passenger.t) (this : passengers.t) :
  fold_left passengers.Add rs this =
  passengers.mk (passengers.TotalPassengers this ++ rs)%list
                (passengers.ListName this).
Proof.
  revert this. induction rs as [|r rs IH]; intros this; simpl.
  - rewrite app_nil_r. now destruct this.
  - rewrite IH. simpl. now rewrite <- app_assoc.
Qed.

Lemma drivers_adds (ds : list driver.t) (this : drivers.t) :
  fold_left drivers.Add ds this =
  drivers.mk (drivers.TotalDrivers this ++ ds)%list (drivers.ListName this).
Proof.
  revert this. induction ds as [|x ds IH]; intros this; simpl.
  - rewrite app_nil_r. now destruct this.
  - rewrite IH. simpl. now rewrite <- app_assoc.
Qed.

Lemma PrintSize_of_empty (name : string) :
  writes (passengers.PrintSize (passengers.mk [] name))
         (passengers.mk [] name) ("Vector is empty." ++ endl).
Proof.
  intros w. unfold passengers.PrintSize. simpl negb. cbv iota.
  change ("Vector is empty." ++ endl) with (("Vector is empty." ++ endl) ++ "").
  revert w. writes_steps.
Qed.

Lemma PrintSize_of_nonempty (name : string) (p : passenger.t)
    (ps : list passenger.t) :
  writes (passengers.PrintSize (passengers.mk (p :: ps) name))
         (passengers.mk (p :: ps) name)
         ("The size is: " ++ decimal (List.length (p :: ps)) ++ endl).
Proof.
  intros w. unfold passengers.PrintSize.
  cbn [passengers.TotalPassengers List.length Nat.eqb negb].
  replace (decimal (S (List.length ps)) ++ endl)
    with (decimal (S (List.length ps)) ++ endl ++ "")
    by now rewrite append_empty_r.
  revert w. writes_steps.
Qed.

Lemma drivers_PrintSize_writes (this : drivers.t) :
  writes (drivers.PrintSize this) this (decimal (drivers.Count this) ++ endl).
Proof.
  unfold drivers.PrintSize.
  replace (decimal (drivers.Count this) ++ endl)
    with (decimal (drivers.Count this) ++ endl ++ "")
    by now rewrite append_empty_r.
  writes_steps.
Qed.

(** C10.  On an empty passenger collection [PrintSize] writes the message
    "Vector is empty." and no number (the text has no digit); the size is
    written, as "The size is: N", when the collection holds at least one
    record. *)
Theorem PrintSize_empty_prints_message :
  forall (name : string) (p : passenger.t) (ps : list passenger.t) (w : world),
    passengers.PrintSize (passengers.mk [] name) w =
      (passengers.mk [] name,
       mk_world (cin w) (cout w ++ "Vector is empty." ++ endl))
    /\ has_digit ("Vector is empty." ++ endl) = false
    /\ passengers.PrintSize (passengers.mk (p :: ps) name) w =
         (passengers.mk (p :: ps) name,
          mk_world (cin w)
            (cout w ++ "The size is: " ++ decimal (List.length (p :: ps)) ++ endl)).
Proof.
  intros name p ps w. split; [| split].
  - apply PrintSize_of_empty.
  - reflexivity.
  - apply PrintSize_of_nonempty.
Qed.

(** C1, as stated, fails after zero [Add] calls on a passenger collection:
    [PrintSize] then writes "Vector is empty.", a text without a digit, and
    not the number 0. *)
Lemma PrintSize_after_no_Add_reports_no_number :
  let none := fold_left passengers.Add [] (passengers.make "Passengers List") in
  let out := cout (snd (passengers.PrintSize none (console ""))) in
  out = "Vector is empty." ++ endl
  /\ has_digit out = false
  /\ out <> "The size is: " ++ decimal 0 ++ endl.
Proof.
  cbv zeta. repeat split. intros E. discriminate E.
Qed.

(** C1, amended.  After any sequence of [Add] calls on a collection that
    starts empty, the collection holds exactly as many records as [Add] was
    called.  For the passenger collection [PrintSize] reports that number, as
    "The size is: N", when at least one [Add] was made, and writes
    "Vector is empty." after none.  For the driver collection the count is
    the number of [Add] calls for every sequence. *)
Theorem count_equals_number_of_adds :
  forall (name : string) (r : passenger.t) (rs : list passenger.t)
         (ds : list driver.t) (w : world),
    let none := passengers.make name in
    let some := fold_left passengers.Add (r :: rs) none in
    let dl := fold_left drivers.Add ds (drivers.make name) in
    List.length (passengers.TotalPassengers some) = List.length (r :: rs)
    /\ passengers.PrintSize some w =
         (some, mk_world (cin w)
                  (cout w ++ "The size is: " ++ decimal (List.length (r :: rs)) ++ endl))
    /\ passengers.PrintSize none w =
         (none, mk_world (cin w) (cout w ++ "Vector is empty." ++ endl))
    /\ drivers.Count dl = List.length ds
    /\ drivers.PrintSize dl w =
         (dl, mk_world (cin w) (cout w ++ decimal (List.length ds) ++ endl)).
Proof.
  intros name r rs ds w none some dl. subst none some dl.
  rewrite passengers_adds, drivers_adds.
  cbn [passengers.make passengers.TotalPassengers passengers.ListName
       drivers.make drivers.TotalDrivers drivers.ListName app].
  split; [reflexivity |].
  split; [apply PrintSize_of_nonempty |].
  split; [apply PrintSize_of_empty |].
  split; [reflexivity |].
  rewrite drivers_PrintSize_writes. reflexivity.
Qed.

(** ** Listing *)

Lemma writes_text {A : Type} (m : IO A) (a : A) (s s' : string) :
  writes m a s -> s = s' -> writes m a s'.
Proof. intros Hm <-. exact Hm. Qed.

Ltac text_eq :=
  cbn [append]; repeat rewrite append_assoc; cbn [append];
  repeat rewrite append_empty_r; reflexivity.

Lemma PrintAll_body_writes `{NumFacets} (p : passenger.t) :
  writes (passengers.PrintAll_body p) tt (entry_text p).
Proof.
  unfold passengers.PrintAll_body, entry_text,
    passenger.getName, passenger.getID, passenger.getPayment,
    passenger.getHandicap, passenger.getRating, passenger.getPets.
  destruct (passenger.handicap p), (passenger.pets p); cbn [Bool.eqb];
    (eapply writes_text; [writes_steps | text_eq]).
Qed.

Lemma concat_cons (s : string) (l : list string) :
  String.concat "" (s :: l) = s ++ String.concat "" l.
Proof.
  destruct l as [|s' l]; simpl.
  - now rewrite append_empty_r.
  - reflexivity.
Qed.

Lemma PrintAll_loop_writes `{NumFacets} (it : list passenger.t) (i : Z) :
  writes (passengers.PrintAll_loop it i) tt (listing it).
Proof.
  revert i. induction it as [|p next IH]; intros i.
  - apply writes_ret.
  - cbn [passengers.PrintAll_loop]. unfold listing.
    cbn [map]. rewrite concat_cons.
    eapply writes_bind; [apply PrintAll_body_writes | apply IH].
Qed.

Lemma PrintAll_writes `{NumFacets} (this : passengers.t) :
  writes (passengers.PrintAll this) this
         (listing (passengers.TotalPassengers this)).
Proof.
  unfold passengers.PrintAll.
  eapply writes_text.
  - eapply writes_bind; [apply PrintAll_loop_writes | apply writes_ret].
  - apply append_empty_r.
Qed.

(** C2.  After the records [rs] were added, in this order, to an empty
    passenger collection, [PrintAll] writes exactly one block per record,
    the blocks in the order the records were added: [length rs] blocks; on
    the empty collection it writes nothing. *)
Theorem PrintAll_lists_records_in_order_added :
  forall (F : NumFacets) (name : string) (rs : list passenger.t) (w : world),
    let this := fold_left passengers.Add rs (passengers.make name) in
    passengers.TotalPassengers this = rs
    /\ passengers.PrintAll this w =
         (this, mk_world (cin w) (cout w ++ String.concat "" (map entry_text rs)))
    /\ List.length (map entry_text rs) = List.length rs
    /\ passengers.PrintAll (passengers.make name) w = (passengers.make name, w).
Proof.
  intros F name rs w this. subst this. rewrite passengers_adds.
  cbn [passengers.make passengers.TotalPassengers passengers.ListName app].
  split; [reflexivity |].
  split; [apply (PrintAll_writes (passengers.mk rs name)) |].
  split; [apply length_map |].
  rewrite (PrintAll_writes (passengers.mk [] name) w).
  cbn. now rewrite append_empty_r, world_eta.
Qed.

(** C8.  [PrintSize] and [PrintAll] leave the collection, its records and
    its name, as it was, and read nothing from the input; [PrintAll] called
    again writes the same listing again, from the first record. *)
Theorem queries_leave_collection_unchanged :
  forall (F : NumFacets) (this : passengers.t) (w : world),
    let sized := passengers.PrintSize this w in
    let first := passengers.PrintAll this w in
    let second := passengers.PrintAll (fst first) (snd first) in
    (fst sized = this /\ cin (snd sized) = cin w)
    /\ (fst first = this /\ cin (snd first) = cin w)
    /\ (fst second = this /\ cin (snd second) = cin w)
    /\ cout (snd first) = cout w ++ listing (passengers.TotalPassengers this)
    /\ cout (snd second) =
         cout (snd first) ++ listing (passengers.TotalPassengers this).
Proof.
  intros F this w sized first second. subst sized first second.
  rewrite (PrintAll_writes this w). cbn [fst snd].
  rewrite (PrintAll_writes this). cbn [fst snd cin cout].
  split; [| repeat split].
  destruct this as [[|p ps] name].
  - rewrite (PrintSize_of_empty name w). now split.
  - rewrite (PrintSize_of_nonempty name p ps w). now split.
Qed.

(** ** Append only *)

Lemma PrintSize_returns_this (this : passengers.t) (w : world) :
  fst (passengers.PrintSize this w) = this.
Proof.
  destruct this as [[|p ps] name].
  - now rewrite (PrintSize_of_empty name w).
  - now rewrite (PrintSize_of_nonempty name p ps w).
Qed.

Lemma PrintAll_returns_this `{NumFacets} (this : passengers.t) (w : world) :
  fst (passengers.PrintAll this w) = this.
Proof. now rewrite (PrintAll_writes this w). Qed.

Lemma FindEntry_returns_this `{PassengerOperators} (this : passengers.t)
    (n : Z) (m : IO passengers.t) (w : world) :
  passengers.FindEntry this n = Some m -> fst (m w) = this.
Proof.
  unfold passengers.FindEntry.
  destruct (std_find eq_int (passengers.TotalPassengers this) n) as [|p it];
    [discriminate |].
  intros [= <-]. reflexivity.
Qed.

(** Each call that has a defined behaviour leaves the records in place and
    puts the record of an [Add] behind them. *)
Lemma perform_appends `{NumFacets} `{PassengerOperators}
    (c : passengers.call) (this : passengers.t) (m : IO passengers.t)
    (w : world) :
  passengers.perform c this = Some m ->
  fst (m w) =
  passengers.mk
    (passengers.TotalPassengers this ++ passengers.added [c])%list
    (passengers.ListName this).
Proof.
  destruct c as [p | | | n]; cbn [passengers.perform passengers.added].
  - intros [= <-]. reflexivity.
  - intros [= <-]. rewrite PrintSize_returns_this, app_nil_r. now destruct this.
  - intros [= <-]. rewrite PrintAll_returns_this, app_nil_r. now destruct this.
  - intros E. rewrite (FindEntry_returns_this this n m w E), app_nil_r.
    now destruct this.
Qed.

Lemma added_cons (c : passengers.call) (cs : list passengers.call) :
  passengers.added (c :: cs) = (passengers.added [c] ++ passengers.added cs)%list.
Proof. destruct c; reflexivity. Qed.

Lemma passengers_perform_all_appends `{NumFacets} `{PassengerOperators}
    (cs : list passengers.call) (this : passengers.t) (w : world) :
  match passengers.perform_all cs this w with
  | Some (this', _) =>
      passengers.TotalPassengers this' =
        (passengers.TotalPassengers this ++ passengers.added cs)%list
      /\ passengers.ListName this' = passengers.ListName this
  | None => exists n, In (passengers.call_FindEntry n) cs
  end.
Proof.
  revert this w. induction cs as [|c cs IH]; intros this w.
  - cbn. now rewrite app_nil_r.
  - cbn [passengers.perform_all].
    destruct (passengers.perform c this) as [m|] eqn:E.
    + pose proof (perform_appends c this m w E) as Hm.
      destruct (m w) as [this1 w1]. cbn [fst] in Hm. subst this1.
      specialize (IH (passengers.mk
        (passengers.TotalPassengers this ++ passengers.added [c])%list
        (passengers.ListName this)) w1).
      destruct (passengers.perform_all cs _ w1) as [[this' w']|].
      * cbn [passengers.TotalPassengers passengers.ListName] in IH.
        rewrite added_cons, app_assoc. exact IH.
      * destruct IH as [n Hn]. exists n. now right.
    + destruct c as [p | | | n]; try discriminate E.
      exists n. now left.
Qed.

Lemma drivers_added_cons (c : drivers.call) (cs : list drivers.call) :
  drivers.added (c :: cs) = (drivers.added [c] ++ drivers.added cs)%list.
Proof. destruct c; reflexivity. Qed.

Lemma drivers_perform_all_appends (cs : list drivers.call) (this : drivers.t)
    (w : world) :
  fst (drivers.perform_all cs this w) =
  drivers.mk (drivers.TotalDrivers this ++ drivers.added cs)%list
             (drivers.ListName this).
Proof.
  revert this w. induction cs as [|c cs IH]; intros this w.
  - cbn. rewrite app_nil_r. now destruct this.
  - cbn [drivers.perform_all]. unfold bind.
    destruct (drivers.perform c this w) as [this1 w1] eqn:E.
    rewrite IH, drivers_added_cons, app_assoc.
    destruct c as [x|]; cbn [drivers.perform] in E.
    + injection E as <- <-. reflexivity.
    + rewrite (drivers_PrintSize_writes this w) in E. injection E as <- <-.
      cbn. now rewrite app_nil_r.
Qed.

(** C6.  Whatever sequence of calls of the public interface is made on a
    collection, the records it held stay where they are, unchanged and in
    their order, and the records of the [Add] calls follow them in call
    order; the name stays too.  For passengers the sequence may include
    [FindEntry], which is the one call that can be without a defined
    behaviour (then nothing is claimed); for drivers the interface is [Add]
    and [PrintSize]. *)
Theorem collection_is_append_only :
  forall (F : NumFacets) (O : PassengerOperators)
         (cs : list passengers.call) (this : passengers.t)
         (ds : list drivers.call) (these : drivers.t) (w : world),
    match passengers.perform_all cs this w with
    | Some (this', _) =>
        passengers.TotalPassengers this' =
          (passengers.TotalPassengers this ++ passengers.added cs)%list
        /\ passengers.ListName this' = passengers.ListName this
    | None => exists n, In (passengers.call_FindEntry n) cs
    end
    /\ drivers.TotalDrivers (fst (drivers.perform_all ds these w)) =
         (drivers.TotalDrivers these ++ drivers.added ds)%list
    /\ drivers.ListName (fst (drivers.perform_all ds these w)) =
         drivers.ListName these.
Proof.
  intros F O cs this ds these w.
  split; [apply passengers_perform_all_appends |].
  rewrite drivers_perform_all_appends. now split.
Qed.

(** ** Lookup *)

Lemma std_find_none {A B : Type} (eq : A -> B -> bool) (l : list A) (v : B) :
  (forall x, In x l -> eq x v = false) -> std_find eq l v = [].
Proof.
  induction l as [|x l IH]; intros Hl; cbn; [reflexivity |].
  rewrite (Hl x (or_introl eq_refl)). apply IH.
  intros y Hy. apply Hl. now right.
Qed.

Lemma std_find_first {A B : Type} (eq : A -> B -> bool)
    (before after : list A) (x : A) (v : B) :
  (forall y, In y before -> eq y v = false) -> eq x v = true ->
  std_find eq (before ++ x :: after) v = x :: after.
Proof.
  induction before as [|y before IH]; intros Hb Hx; cbn.
  - now rewrite Hx.
  - rewrite (Hb y (or_introl eq_refl)). apply IH; [| exact Hx].
    intros z Hz. apply Hb. now right.
Qed.

(** With the id as the meaning of [==], a lookup that has a match writes the
    first-added record with that id. *)
Lemma FindEntry_writes_first_match (render : passenger.t -> string)
    (name : string) (before after : list passenger.t) (r : passenger.t)
    (n : Z) :
  (forall y, In y before -> passenger.getID y <> n) ->
  passenger.getID r = n ->
  let this := passengers.mk (before ++ r :: after) name in
  exists m, passengers.FindEntry (H := by_id render) this n = Some m
            /\ writes m this (render r ++ endl).
Proof.
  intros Hb Hr this. unfold passengers.FindEntry.
  cbn [passengers.TotalPassengers this].
  rewrite (std_find_first (@eq_int (by_id render)) before after r n).
  - eexists. split; [reflexivity |].
    eapply writes_text; [writes_steps | text_eq].
  - intros y Hy. cbn. apply Z.eqb_neq. now apply Hb.
  - cbn. now apply Z.eqb_eq.
Qed.

(** A lookup without a match reads through the end of the vector. *)
Lemma FindEntry_without_match (render : passenger.t -> string)
    (this : passengers.t) (n : Z) :
  (forall y, In y (passengers.TotalPassengers this) -> passenger.getID y <> n) ->
  passengers.FindEntry (H := by_id render) this n = None.
Proof.
  intros Hn. unfold passengers.FindEntry.
  rewrite std_find_none; [reflexivity |].
  intros y Hy. cbn. apply Z.eqb_neq. now apply Hn.
Qed.

(** C3.  [FindEntry(7)] on the collection as [main] creates it, with no
    record in it: whatever [==] and [<<] are, [find] returns [end()] and the
    function dereferences it; there is no not-found outcome. *)
Theorem FindEntry_on_empty_is_undefined :
  forall O : PassengerOperators,
    passengers.FindEntry (passengers.make "Passengers List") 7 = None.
Proof. intros O. reflexivity. Qed.

(** ** The prompt loops of main.cpp *)

(** A loop whose condition holds in every state is never left. *)
Lemma do_while_never_exits {S : Type} (body : S -> IO S) (cond : S -> bool) :
  (forall s, cond s = true) ->
  forall (fuel : nat) (s : S) (w : world), do_while fuel body cond s w = None.
Proof.
  intros Hc fuel. induction fuel as [|fuel IH]; intros s w; cbn.
  - reflexivity.
  - destruct (body s w) as [s' w']. rewrite Hc. apply IH.
Qed.

(** A loop that is left is left in a state where the condition is false. *)
Lemma do_while_exit {S : Type} (body : S -> IO S) (cond : S -> bool)
    (fuel : nat) (s s' : S) (w w' : world) :
  do_while fuel body cond s w = Some (s', w') -> cond s' = false.
Proof.
  revert s w. induction fuel as [|fuel IH]; intros s w; cbn.
  - discriminate.
  - destruct (body s w) as [s1 w1]. destruct (cond s1) eqn:E.
    + apply IH.
    + intros [= <- <-]. exact E.
Qed.

Lemma differs_from_one_of (s a b : string) :
  a <> b -> (negb (String.eqb s a) || negb (String.eqb s b))%bool = true.
Proof.
  intros Hab. destruct (String.eqb_spec s a) as [->|Hs]; cbn.
  - apply negb_true_iff, String.eqb_neq. exact Hab.
  - reflexivity.
Qed.

Lemma yes_no_cond_holds (l : main_cpp.locals) : main_cpp.yes_no_cond l = true.
Proof. apply differs_from_one_of. discriminate. Qed.

Lemma type_cond_holds (l : main_cpp.locals) : main_cpp.type_cond l = true.
Proof.
  unfold main_cpp.type_cond.
  rewrite (differs_from_one_of (main_cpp.tempStr l) "compact" "2dr")
    by discriminate.
  reflexivity.
Qed.

Lemma payment_cond_holds (l : main_cpp.locals) : main_cpp.payment_cond l = true.
Proof.
  unfold main_cpp.payment_cond.
  rewrite (differs_from_one_of (main_cpp.tempStr l) "cash" "card")
    by discriminate.
  reflexivity.
Qed.

(** C4.  The handicap loop of the driver flow with the valid answer "yes"
    on the input: the iteration stores the answer, and the condition, which
    joins its two disequalities with [||], is true after it, so the loop is
    not left after this iteration. *)
Lemma handicap_loop_continues_after_yes :
  let l := main_cpp.entry zeroes in
  let w := console (line "yes") in
  let l' := fst (main_cpp.driver_handicap_body l w) in
  main_cpp.tempStr l' = "yes"
  /\ driver.getHandicap (main_cpp.d l') = true
  /\ main_cpp.yes_no_cond l' = true
  /\ do_while 1 main_cpp.driver_handicap_body main_cpp.yes_no_cond l w = None.
Proof. cbv zeta. repeat split. Qed.

(** The same in every state and for each loop whose condition joins
    disequalities with [||] (the five yes/no loops, the vehicle type loop,
    the payment method loop): the condition is true after every iteration,
    so no number of iterations leaves the loop. *)
Theorem validation_loops_are_never_left :
  forall (fuel : nat) (l : main_cpp.locals) (w : world),
    (main_cpp.yes_no_cond l = true
     /\ main_cpp.type_cond l = true
     /\ main_cpp.payment_cond l = true)
    /\ do_while fuel main_cpp.driver_handicap_body main_cpp.yes_no_cond l w = None
    /\ do_while fuel main_cpp.driver_available_body main_cpp.yes_no_cond l w = None
    /\ do_while fuel main_cpp.driver_pets_body main_cpp.yes_no_cond l w = None
    /\ do_while fuel main_cpp.passenger_handicap_body main_cpp.yes_no_cond l w = None
    /\ do_while fuel main_cpp.passenger_pets_body main_cpp.yes_no_cond l w = None
    /\ do_while fuel main_cpp.type_body main_cpp.type_cond l w = None
    /\ do_while fuel main_cpp.payment_body main_cpp.payment_cond l w = None.
Proof.
  intros fuel l w.
  split; [auto using yes_no_cond_holds, type_cond_holds, payment_cond_holds |].
  repeat split; apply do_while_never_exits;
    auto using yes_no_cond_holds, type_cond_holds, payment_cond_holds.
Qed.

(** So neither add flow of main.cpp reaches its [Add]. *)
Lemma add_driver_never_returns `{NumFacets} (fuel : nat)
    (ListOfDrivers : drivers.t) (l : main_cpp.locals) (w : world) :
  main_cpp.add_driver fuel ListOfDrivers l w = None.
Proof.
  unfold main_cpp.add_driver, pbind, lift.
  destruct (main_cpp.driver_head l w) as [l1 w1].
  now rewrite (do_while_never_exits _ _ yes_no_cond_holds).
Qed.

Lemma add_passenger_never_returns `{NumFacets} (fuel : nat)
    (ListOfPassengers : passengers.t) (l : main_cpp.locals) (w : world) :
  main_cpp.add_passenger fuel ListOfPassengers l w = None.
Proof.
  unfold main_cpp.add_passenger, pbind, lift.
  destruct (main_cpp.passenger_head l w) as [l1 w1].
  now rewrite (do_while_never_exits _ _ payment_cond_holds).
Qed.

Lemma ExecuteMenu_stores_nothing `{NumFacets} (fuel : nat) (option : ascii)
    (ListOfDrivers d_list : drivers.t) (ListOfPassengers p_list : passengers.t)
    (indet : passenger.t) (w w' : world) :
  main_cpp.ExecuteMenu fuel option ListOfDrivers ListOfPassengers indet w
    = Some (d_list, p_list, w') ->
  d_list = ListOfDrivers /\ p_list = ListOfPassengers.
Proof.
  unfold main_cpp.ExecuteMenu.
  destruct (Ascii.eqb (toupper option) "A").
  - unfold pbind at 1. unfold lift at 1.
    destruct (bind cin_ignore _ w) as [l1 w1].
    destruct (Ascii.eqb (toupper (main_cpp.c l1)) "A").
    + unfold pbind. now rewrite add_driver_never_returns.
    + destruct (Ascii.eqb (toupper (main_cpp.c l1)) "B").
      * unfold pbind. now rewrite add_passenger_never_returns.
      * unfold lift, ret. intros [= <- <- <-]. now split.
  - unfold lift, ret. intros [= <- <- <-]. now split.
Qed.

(** ** Ratings *)

(** The rating loops of main.cpp are the validated path: when one is left,
    the rating stored in the record is the value last read and it is
    neither below 1 nor above 5. *)
Lemma driver_rating_loop_validates `{NumFacets} (fuel : nat)
    (l l' : main_cpp.locals) (w w' : world) :
  do_while fuel main_cpp.driver_rating_body main_cpp.rating_cond l w
    = Some (l', w') ->
  float_lt (driver.getRating (main_cpp.d l')) (float_of_int 1) = false
  /\ float_lt (float_of_int 5) (driver.getRating (main_cpp.d l')) = false.
Proof.
  intros E. pose proof (do_while_exit _ _ _ _ _ _ _ E) as Hc.
  assert (Hd : driver.getRating (main_cpp.d l') = main_cpp.tempFloat l').
  { destruct fuel as [|fuel]; [discriminate E |].
    clear Hc. revert l w E.
    induction fuel as [|fuel IH]; intros l w; cbn [do_while];
      destruct (main_cpp.driver_rating_body l w) as [l1 w1] eqn:B;
      unfold main_cpp.driver_rating_body, bind, put, ret in B;
      destruct (get_float (main_cpp.tempFloat l) _) as [f w2];
      injection B as <- <-;
      destruct (main_cpp.rating_cond _).
    - discriminate.
    - intros [= <- <-]. reflexivity.
    - apply IH.
    - intros [= <- <-]. reflexivity. }
  rewrite Hd. unfold main_cpp.rating_cond in Hc.
  now apply orb_false_iff in Hc.
Qed.

(** The add flows of the two single-list programs have no branch and no
    loop: whatever is on the input, exactly one record is stored. *)
Ltac run_statements :=
  repeat match goal with
         | |- context [let (_, _) := ?m in _] => destruct m
         end.

Lemma drivermain_add_always_stores `{NumFacets} (ListOfDrivers : drivers.t)
    (auto : driver.t) (w : world) :
  exists driver1,
    fst (drivermain.ExecuteMenu "a" ListOfDrivers auto w)
    = drivers.Add ListOfDrivers driver1.
Proof.
  unfold drivermain.ExecuteMenu. cbn [Ascii.eqb Bool.eqb]. unfold bind.
  run_statements. eexists. reflexivity.
Qed.

Lemma passengersmain_add_always_stores `{NumFacets}
    (ListOfPassengers : passengers.t) (auto indet : passenger.t) (w : world) :
  exists p,
    fst (passengersmain.ExecuteMenu "a" ListOfPassengers auto indet w)
    = passengers.Add ListOfPassengers p.
Proof.
  unfold passengersmain.ExecuteMenu. cbn [Ascii.eqb Bool.eqb]. unfold bind.
  run_statements. eexists. reflexivity.
Qed.

(** C5.  The add flows of drivermain.cpp and passengersmain.cpp read the
    rating and store it without a check.  With "0.5" typed at the rating
    prompt of the driver program, the driver added has the rating 0.5,
    which is below 1; with "5.5" typed at the rating prompt of the
    passenger program, the passenger added has the rating 5.5, which is
    above 5. *)
Theorem unvalidated_rating_is_stored :
  let typed_d := line "" ++ line "1" ++ line "Ana" ++ line "4" ++ line "0"
                 ++ line "sedan" ++ line "0.5" ++ line "1" ++ line "0"
                 ++ line "none" in
  let typed_p := line "" ++ line "Bo" ++ line "7" ++ line "cash" ++ line "0"
                 ++ line "5.5" ++ line "1" in
  let d_list := fst (drivermain.ExecuteMenu (H := sample_facets) "a"
                       (drivers.make "Drivers") driver.default
                       (console typed_d)) in
  let p_list := fst (passengersmain.ExecuteMenu (H := sample_facets) "a"
                       (passengers.make "Passengers List") zeroes zeroes
                       (console typed_p)) in
  (d_list = drivers.mk
              [driver.make 1 "Ana" 4 false "sedan" float_0_5 true false "none"]
              "Drivers"
   /\ float_lt float_0_5 (float_of_int 1) = true)
  /\ (p_list = passengers.mk
                 [passenger.make "Bo" 7 "cash" false float_5_5 true]
                 "Passengers List"
      /\ float_lt (float_of_int 5) float_5_5 = true).
Proof. cbv zeta. repeat split. Qed.

(** ** Whole runs *)

Lemma while_do_invariant {S : Type} (P : S -> Prop) (cond : S -> bool)
    (body : S -> Partial S) :
  (forall s w s' w', P s -> body s w = Some (s', w') -> P s') ->
  forall (fuel : nat) (s s' : S) (w w' : world),
    P s -> while_do fuel cond body s w = Some (s', w') -> P s'.
Proof.
  intros Hb fuel. induction fuel as [|fuel IH]; intros s s' w w' Hs; cbn.
  - discriminate.
  - destruct (cond s).
    + destruct (body s w) as [[s1 w1]|] eqn:E; [| discriminate].
      apply IH. exact (Hb s w s1 w1 Hs E).
    + intros [= <- <-]. exact Hs.
Qed.

(** X1.  The combined program never stores a record: when its [main] returns,
    both collections are as they were created. *)
Lemma main_cpp_stores_nothing `{NumFacets} (fuel : nat) (indet : passenger.t)
    (w w' : world) (z : Z) (d_list : drivers.t) (p_list : passengers.t) :
  main_cpp.main fuel indet w = Some (z, (d_list, p_list), w') ->
  d_list = drivers.make "Drivers List"
  /\ p_list = passengers.make "Passengers List".
Proof.
  unfold main_cpp.main, pbind, lift.
  destruct (bind (put "Passengers List") _ w) as [u1 w1].
  destruct (main_cpp.PrintMenu w1) as [u2 w2].
  destruct (while_do fuel _ _ _ w2) as [[[c lists] w3]|] eqn:E; [| discriminate].
  unfold ret. cbn [snd]. intros [= _ -> _].
  apply (while_do_invariant
           (fun s => snd s = (drivers.make "Drivers List",
                              passengers.make "Passengers List"))) in E.
  - cbn [snd] in E. injection E as -> ->. now split.
  - clear. intros [c0 [dl pl]] v [c1 [dl1 pl1]] v1 Hs. cbn [snd] in Hs.
    injection Hs as -> ->.
    unfold main_cpp.main_turn, pbind, lift.
    destruct (bind (put _) _ v) as [c2 v2].
    destruct (_ || _)%bool.
    + destruct (main_cpp.ExecuteMenu _ _ _ _ _ v2) as [[[dl2 pl2] v3]|] eqn:X;
        [| discriminate].
      apply ExecuteMenu_stores_nothing in X. destruct X as [-> ->].
      unfold bind, ret. destruct (main_cpp.PrintMenu v3).
      now intros [= _ <- <- _].
    + unfold ret. now intros [= _ <- <- _].
  - reflexivity.
Qed.

(** A session of the passenger program: one passenger is added, the size
    and the listing are asked for, and [q] ends the program. *)
Example passengersmain_session :
  let typed := line "a" ++ line "Bo" ++ line "7" ++ line "cash" ++ line "0"
               ++ line "3.0" ++ line "1" ++ line "f" ++ line "p" ++ line "q" in
  option_map fst
    (passengersmain.main (H := sample_facets) 5 zeroes zeroes (console typed))
  = Some (0, passengers.mk
               [passenger.make "Bo" 7 "cash" false (float_of_int 3) true]
               "Passengers List").
Proof. reflexivity. Qed.

(** A session of the driver program. *)
Example drivermain_session :
  let typed := line "Drivers" ++ line "a" ++ line "1" ++ line "Ana"
               ++ line "4" ++ line "0" ++ line "sedan" ++ line "4.5"
               ++ line "1" ++ line "0" ++ line "" ++ line "q" in
  option_map fst
    (drivermain.main (H := sample_facets) 5 driver.default (console typed))
  = Some (0, drivers.mk
               [driver.make 1 "Ana" 4 false "sedan"
                  (S754_finite false 9437184 (-21)) true false ""]
               "Drivers").
Proof. reflexivity. Qed.

(** ** A failed input *)

Lemma sentry_failed (noskipws : bool) (i : istream) :
  failbit i = true -> sentry noskipws i = (i, false).
Proof.
  intros Hf. unfold sentry, good. rewrite Hf, andb_false_r.
  destruct i as [b e f]. cbn in *. now subst f.
Qed.

Lemma skipped_ret {A : Type} (a : A) : skipped (ret a) a.
Proof. intros w _. now split. Qed.

Lemma skipped_put (s : string) : skipped (put s) tt.
Proof. intros w _. now split. Qed.

Lemma skipped_bind {A B : Type} (m : IO A) (k : A -> IO B) (a : A) (b : B) :
  skipped m a -> skipped (k a) b -> skipped (bind m k) b.
Proof.
  intros Hm Hk w Hw. unfold bind.
  destruct (Hm w Hw) as [Ha Hc]. destruct (m w) as [a' w1]. cbn in Ha, Hc.
  subst a'. assert (H1 : failed w1) by (unfold failed; now rewrite Hc).
  destruct (Hk w1 H1) as [Hb Hc']. split; [exact Hb | congruence].
Qed.

Lemma skipped_writes {A : Type} (m : IO A) (a : A) (s : string) :
  writes m a s -> skipped m a.
Proof. intros Hm w _. rewrite Hm. now split. Qed.

Ltac skip_extraction :=
  intros w Hw; unfold failed in Hw;
  unfold cin_ignore, get_char, get_string, getline, get_int, get_bool,
    get_float;
  rewrite (sentry_failed _ _ Hw); now split.

Lemma skipped_ignore : skipped cin_ignore tt.
Proof. skip_extraction. Qed.

Lemma skipped_get_char (old : ascii) : skipped (get_char old) old.
Proof. skip_extraction. Qed.

Lemma skipped_get_string (old : string) : skipped (get_string old) old.
Proof. skip_extraction. Qed.

Lemma skipped_getline (old : string) : skipped (getline old) old.
Proof. skip_extraction. Qed.

Lemma skipped_get_int (old : Z) : skipped (get_int old) old.
Proof. skip_extraction. Qed.

Lemma skipped_get_bool (old : bool) : skipped (get_bool old) old.
Proof. skip_extraction. Qed.

Lemma skipped_get_float `{NumFacets} (old : float) : skipped (get_float old) old.
Proof. skip_extraction. Qed.

Ltac skipped_steps :=
  repeat first
    [ eapply skipped_bind
    | apply skipped_ignore | apply skipped_get_char | apply skipped_get_string
    | apply skipped_getline | apply skipped_get_int | apply skipped_get_bool
    | apply skipped_get_float | apply skipped_put | apply skipped_ret ].

Lemma PrintSize_skipped (this : passengers.t) :
  skipped (passengers.PrintSize this) this.
Proof.
  destruct this as [[|p ps] name].
  - exact (skipped_writes _ _ _ (PrintSize_of_empty name)).
  - exact (skipped_writes _ _ _ (PrintSize_of_nonempty name p ps)).
Qed.

(** ** Uninitialised locals *)

Lemma skipped_sticky {A : Type} (m : IO A) (a : A) (w : world) :
  skipped m a -> failed w -> failed (snd (m w)).
Proof.
  intros Hm Hw. destruct (Hm w Hw) as [_ Hc]. unfold failed. now rewrite Hc.
Qed.

Lemma sentry_refused (noskipws : bool) (i i' : istream) :
  sentry noskipws i = (i', false) -> failbit i' = true.
Proof.
  unfold sentry. destruct (good i).
  - destruct noskipws; [discriminate |].
    destruct (skipws (buf i)); [| discriminate].
    intros [= <-]. reflexivity.
  - intros [= <-]. reflexivity.
Qed.

(** An extraction either leaves [cin] failed or assigns: what it yields
    does not depend on the value the variable had. *)
Ltac fails_or_assigns :=
  intros old w;
  unfold getline, get_int, get_bool, get_float;
  destruct (sentry _ (cin w)) as [i [|]] eqn:E;
  [ right; intros old'; reflexivity
  | left; cbn [snd cin]; exact (sentry_refused _ _ _ E) ].

Lemma get_int_assigns (old : Z) (w : world) :
  failbit (cin (snd (get_int old w))) = true
  \/ forall old', get_int old' w = get_int old w.
Proof. revert old w. fails_or_assigns. Qed.

Lemma get_bool_assigns (old : bool) (w : world) :
  failbit (cin (snd (get_bool old w))) = true
  \/ forall old', get_bool old' w = get_bool old w.
Proof. revert old w. fails_or_assigns. Qed.

Lemma get_float_assigns `{NumFacets} (old : float) (w : world) :
  failbit (cin (snd (get_float old w))) = true
  \/ forall old', get_float old' w = get_float old w.
Proof. revert old w. fails_or_assigns. Qed.

Lemma agrees_pure {A B : Type} (m : IO A) (k1 k2 : A -> IO B) (w : world) :
  (forall a w', agree_if_unfailed (k1 a w') (k2 a w')) ->
  agree_if_unfailed (bind m k1 w) (bind m k2 w).
Proof. intros Hk. unfold bind. destruct (m w) as [a w']. apply Hk. Qed.

Lemma agrees_get {A B : Type} (get : A -> IO A) (old1 old2 : A)
    (k1 k2 : A -> IO B) (w : world) :
  (failbit (cin (snd (get old1 w))) = true
   \/ forall old', get old' w = get old1 w) ->
  (forall a w', failed w' -> failed (snd (k1 a w'))) ->
  (forall a w', agree_if_unfailed (k1 a w') (k2 a w')) ->
  agree_if_unfailed (bind (get old1) k1 w) (bind (get old2) k2 w).
Proof.
  intros [Hf | He] Hs Hk.
  - intros Hg. exfalso. unfold bind in Hg.
    destruct (get old1 w) as [a w']. cbn [snd] in Hf.
    pose proof (Hs a w' Hf) as Hx. unfold failed in Hx.
    rewrite Hx in Hg. discriminate Hg.
  - unfold bind. rewrite (He old2). destruct (get old1 w) as [a w']. apply Hk.
Qed.

Ltac agree_step :=
  first
    [ apply agrees_pure; intros ? ?; cbv beta
    | apply agrees_get;
      [ first [ apply get_int_assigns | apply get_bool_assigns
              | apply get_float_assigns ]
      | intros ? ? ?; cbv beta; eapply skipped_sticky;
        [ skipped_steps | assumption ]
      | intros ? ?; cbv beta ] ].

(** X9.  On every run of the add flow of passengersmain.cpp that leaves
    [cin] unfailed, the record appended does not depend on what the
    uninitialised locals or the storage of the local [passenger p] held:
    every local is assigned by its extraction before a setter reads it, and
    the six setters overwrite the whole object. *)
Theorem passengersmain_add_ignores_indeterminate_values :
  forall (F : NumFacets) (ListOfPassengers : passengers.t)
         (auto1 indet1 auto2 indet2 : passenger.t) (w : world),
    failbit (cin (snd (passengersmain.ExecuteMenu "a" ListOfPassengers
                         auto1 indet1 w))) = false ->
    fst (passengersmain.ExecuteMenu "a" ListOfPassengers auto1 indet1 w)
    = fst (passengersmain.ExecuteMenu "a" ListOfPassengers auto2 indet2 w).
Proof.
  intros F L auto1 indet1 auto2 indet2 w.
  change (agree_if_unfailed
            (passengersmain.ExecuteMenu "a" L auto1 indet1 w)
            (passengersmain.ExecuteMenu "a" L auto2 indet2 w)).
  unfold passengersmain.ExecuteMenu. cbn [Ascii.eqb Bool.eqb]. cbv zeta.
  repeat agree_step.
  intros _. reflexivity.
Qed.

Lemma passengersmain_add_ignores_indeterminate_values_witness :
  let w := typing (String nl (line "Bo Li" ++ line "7" ++ line "cash"
                              ++ line "0" ++ line "3.0" ++ line "1")) "" in
  failbit (cin (snd (passengersmain.ExecuteMenu (H := sample_facets) "a"
                       (passengers.make "Passengers List") zeroes zeroes w)))
  = false
  /\ fst (passengersmain.ExecuteMenu (H := sample_facets) "a"
            (passengers.make "Passengers List") zeroes zeroes w)
     = fst (passengersmain.ExecuteMenu (H := sample_facets) "a"
              (passengers.make "Passengers List") junk_passenger
              junk_passenger w).
Proof.
  cbv zeta. split; [reflexivity |].
  apply (passengersmain_add_ignores_indeterminate_values sample_facets).
  reflexivity.
Defined.

(** X14.  On every run of the add flow of drivermain.cpp that leaves [cin]
    unfailed, the driver handed to [Add] does not depend on what the
    uninitialised locals held: every local is assigned by its extraction
    before a setter reads it. *)
Theorem drivermain_add_ignores_indeterminate_values :
  forall (F : NumFacets) (ListOfDrivers : drivers.t) (auto1 auto2 : driver.t)
         (w : world),
    failbit (cin (snd (drivermain.ExecuteMenu "a" ListOfDrivers auto1 w)))
    = false ->
    fst (drivermain.ExecuteMenu "a" ListOfDrivers auto1 w)
    = fst (drivermain.ExecuteMenu "a" ListOfDrivers auto2 w).
Proof.
  intros F L auto1 auto2 w.
  change (agree_if_unfailed
            (drivermain.ExecuteMenu "a" L auto1 w)
            (drivermain.ExecuteMenu "a" L auto2 w)).
  unfold drivermain.ExecuteMenu. cbn [Ascii.eqb Bool.eqb]. cbv zeta.
  repeat agree_step.
  intros _. reflexivity.
Qed.

Lemma drivermain_add_ignores_indeterminate_values_witness :
  let w := typing (String nl (line "1" ++ line "Ana" ++ line "4" ++ line "0"
                              ++ line "sedan" ++ line "4.5" ++ line "1"
                              ++ line "0" ++ line "none")) "" in
  failbit (cin (snd (drivermain.ExecuteMenu (H := sample_facets) "a"
                       (drivers.make "Drivers") driver.default w))) = false
  /\ fst (drivermain.ExecuteMenu (H := sample_facets) "a"
            (drivers.make "Drivers") driver.default w)
     = fst (drivermain.ExecuteMenu (H := sample_facets) "a"
              (drivers.make "Drivers") junk_driver w).
Proof.
  cbv zeta. split; [reflexivity |].
  apply (drivermain_add_ignores_indeterminate_values sample_facets).
  reflexivity.
Defined.

(** ** Programs that do not end *)

(** A loop whose condition holds wherever an invariant does, and whose body
    keeps the invariant, is never left. *)
Lemma while_do_stuck {S : Type} (P : S -> world -> Prop) (cond : S -> bool)
    (body : S -> Partial S) :
  (forall s w, P s w -> cond s = true) ->
  (forall s w s' w', P s w -> body s w = Some (s', w') -> P s' w') ->
  forall (fuel : nat) (s : S) (w : world),
    P s w -> while_do fuel cond body s w = None.
Proof.
  intros Hc Hb fuel. induction fuel as [|fuel IH]; intros s w Hs; cbn.
  - reflexivity.
  - rewrite (Hc s w Hs).
    destruct (body s w) as [[s' w']|] eqn:E; [| reflexivity].
    apply IH. exact (Hb s w s' w' Hs E).
Qed.

Lemma not_q (c : ascii) : c <> "q"%char -> negb (Ascii.eqb c "q") = true.
Proof. intros Hc. apply negb_true_iff, Ascii.eqb_neq. exact Hc. Qed.

Lemma passengersmain_ExecuteMenu_skipped `{NumFacets} (option : ascii)
    (ListOfPassengers : passengers.t) (auto indet : passenger.t) :
  option <> "a"%char ->
  exists List',
    skipped (passengersmain.ExecuteMenu option ListOfPassengers auto indet) List'.
Proof.
  intros Ha. unfold passengersmain.ExecuteMenu.
  apply Ascii.eqb_neq in Ha. rewrite Ha.
  destruct (Ascii.eqb option "f").
  { eexists. apply PrintSize_skipped. }
  destruct (Ascii.eqb option "p").
  { eexists. exact (skipped_writes _ _ _ (PrintAll_writes ListOfPassengers)). }
  eexists. apply skipped_ret.
Qed.

Lemma passengersmain_turn_skipped `{NumFacets} (auto indet : passenger.t)
    (c : ascii) (List : passengers.t) :
  c <> "a"%char ->
  exists List',
    skipped (passengersmain.main_turn auto indet (c, List)) (c, List').
Proof.
  intros Ha. unfold passengersmain.main_turn.
  destruct (passengersmain_ExecuteMenu_skipped c List auto indet Ha) as [L' HL].
  destruct (Ascii.eqb c "a" || Ascii.eqb c "d" || Ascii.eqb c "f"
            || Ascii.eqb c "p")%bool eqn:E.
  - exists L'.
    eapply skipped_bind; [apply skipped_put |].
    eapply skipped_bind; [apply skipped_get_char |].
    cbv beta. rewrite E.
    eapply skipped_bind; [exact HL |].
    unfold passengersmain.PrintMenu. skipped_steps.
  - exists List.
    eapply skipped_bind; [apply skipped_put |].
    eapply skipped_bind; [apply skipped_get_char |].
    cbv beta. rewrite E. apply skipped_ret.
Qed.

Lemma passengersmain_loop_stuck `{NumFacets} (fuel : nat)
    (auto indet : passenger.t) (c : ascii) (List : passengers.t) (w : world) :
  failed w -> c <> "q"%char -> c <> "a"%char ->
  while_do fuel (fun s => negb (Ascii.eqb (fst s) "q"))
    (fun s => lift (passengersmain.main_turn auto indet s)) (c, List) w = None.
Proof.
  intros Hw Hc Ha.
  apply (while_do_stuck
           (fun s v => (fst s <> "q"%char /\ fst s <> "a"%char) /\ failed v)).
  - intros s v [[Hs _] _]. now apply not_q.
  - intros [c0 L0] v [c1 L1] v1 [Hs Hv]. unfold lift.
    destruct (passengersmain_turn_skipped auto indet c0 L0 (proj2 Hs))
      as [L' HL].
    destruct (HL v Hv) as [Hr Hi].
    destruct (passengersmain.main_turn auto indet (c0, L0) v) as [r v'].
    cbn [fst snd] in Hr, Hi. intros [= -> ->]. injection Hr as -> _.
    split; [exact Hs |]. unfold failed. now rewrite Hi.
  - now repeat split.
Qed.

Lemma get_char_blank (old : ascii) (input out : string) :
  skipws input = "" ->
  get_char old (typing input out)
  = (old, mk_world (mk_istream "" true true) out).
Proof.
  intros Hi. unfold get_char, sentry, good, typing. cbn. now rewrite Hi.
Qed.

Lemma passengersmain_blank_turn `{NumFacets} (auto indet : passenger.t)
    (List : passengers.t) (input out : string) :
  skipws input = "" ->
  exists w',
    passengersmain.main_turn auto indet (" "%char, List) (typing input out)
    = ((" "%char, List), w')
    /\ failed w'.
Proof.
  intros Hi. unfold passengersmain.main_turn, bind.
  cbn [put typing cin cout]. fold (typing input (out ++ "Option Choice" ++ endl)).
  rewrite (get_char_blank _ _ _ Hi). cbn.
  eexists. split; reflexivity.
Qed.

(** X10.  The passenger program does not end once its input has failed:
    from any turn of the loop of [main] at which [cin] has failed and the
    last command was neither [q] nor [a], the loop is never left; in
    particular [main] never returns when the input is empty or blank. *)
Theorem passengersmain_never_ends_without_q :
  forall (F : NumFacets) (fuel : nat) (auto indet : passenger.t),
    (forall (c : ascii) (List : passengers.t) (w : world),
        failed w -> c <> "q"%char -> c <> "a"%char ->
        while_do fuel (fun s => negb (Ascii.eqb (fst s) "q"))
          (fun s => lift (passengersmain.main_turn auto indet s)) (c, List) w
        = None)
    /\ (forall input : string,
          skipws input = "" ->
          passengersmain.main fuel auto indet (console input) = None).
Proof.
  intros F fuel auto indet. split.
  - intros c List w. apply passengersmain_loop_stuck.
  - intros input Hi. unfold passengersmain.main, pbind, lift.
    cbn [bind put console cin cout passengersmain.PrintMenu].
    destruct fuel as [|fuel]; [reflexivity |].
    cbn [while_do fst Ascii.eqb Bool.eqb negb]. unfold lift.
    match goal with
    | |- context [passengersmain.main_turn _ _ _ (mk_world _ ?out)] =>
        destruct (passengersmain_blank_turn auto indet
                    (passengers.make "Passengers List") input out Hi)
          as [w' [E Hw']]
    end.
    unfold typing in E. rewrite E.
    pose proof (passengersmain_loop_stuck fuel auto indet " "%char
                  (passengers.make "Passengers List") w' Hw') as Hl.
    unfold lift in Hl. rewrite Hl; [reflexivity | discriminate | discriminate].
Qed.

Lemma passengersmain_never_ends_without_q_witness :
  skipws "" = ""
  /\ passengersmain.main (H := sample_facets) 7 zeroes zeroes (console "") = None.
Proof.
  split; [reflexivity |].
  apply (passengersmain_never_ends_without_q sample_facets 7 zeroes zeroes).
  reflexivity.
Defined.

Lemma main_cpp_ExecuteMenu_failed `{NumFacets} (fuel : nat) (option : ascii)
    (ListOfDrivers : drivers.t) (ListOfPassengers : passengers.t)
    (indet : passenger.t) (w : world) :
  failed w ->
  exists w',
    main_cpp.ExecuteMenu fuel option ListOfDrivers ListOfPassengers indet w
    = Some ((ListOfDrivers, ListOfPassengers), w')
    /\ cin w' = cin w.
Proof.
  intros Hw. unfold main_cpp.ExecuteMenu.
  destruct (Ascii.eqb (toupper option) "A").
  - unfold pbind at 1. unfold lift at 1.
    match goal with |- context [bind cin_ignore ?k w] =>
      assert (Hs : skipped (bind cin_ignore k)
                     (main_cpp.with_c (main_cpp.entry indet) " "%char))
        by skipped_steps;
      destruct (Hs w Hw) as [Hr Hi];
      destruct (bind cin_ignore k w) as [l1 w1]
    end.
    cbn [fst snd] in Hr, Hi. subst l1. cbn -[main_cpp.add_driver main_cpp.add_passenger].
    eexists. split; [reflexivity | exact Hi].
  - eexists. split; reflexivity.
Qed.

Lemma main_cpp_turn_failed `{NumFacets} (fuel : nat) (indet : passenger.t)
    (c c' : ascii) (lists lists' : drivers.t * passengers.t) (w w' : world) :
  failed w ->
  main_cpp.main_turn fuel indet (c, lists) w = Some ((c', lists'), w') ->
  c' = c /\ failed w'.
Proof.
  intros Hw. destruct lists as [d_list p_list].
  unfold main_cpp.main_turn, pbind. unfold lift at 1.
  match goal with |- context [bind (put ?s) ?k w] =>
    assert (Hs : skipped (bind (put s) k) c) by skipped_steps;
    destruct (Hs w Hw) as [Hr Hi];
    destruct (bind (put s) k w) as [c1 w1]
  end.
  cbn [fst snd] in Hr, Hi. subst c1.
  assert (H1 : failed w1) by (unfold failed; now rewrite Hi).
  destruct (_ || _)%bool.
  - destruct (main_cpp_ExecuteMenu_failed fuel c d_list p_list indet w1 H1)
      as [w2 [E2 Hi2]].
    rewrite E2. unfold lift, bind, ret.
    destruct (main_cpp.PrintMenu w2) as [u w3] eqn:E3.
    assert (H3 : cin w3 = cin w2)
      by (unfold main_cpp.PrintMenu, bind, put in E3;
          injection E3 as _ <-; reflexivity).
    intros [= <- _ <-]. split; [reflexivity |].
    unfold failed. rewrite H3, Hi2. exact H1.
  - unfold lift, ret. intros [= <- _ <-]. now split.
Qed.

Lemma main_cpp_loop_stuck `{NumFacets} (fuel n : nat) (indet : passenger.t)
    (c : ascii) (lists : drivers.t * passengers.t) (w : world) :
  failed w -> c <> "q"%char ->
  while_do n (fun s => negb (Ascii.eqb (fst s) "q"))
    (main_cpp.main_turn fuel indet) (c, lists) w = None.
Proof.
  intros Hw Hc.
  apply (while_do_stuck (fun s v => fst s <> "q"%char /\ failed v)).
  - intros s v [Hs _]. now apply not_q.
  - intros [c0 l0] v [c1 l1] v1 [Hs Hv] E.
    destruct (main_cpp_turn_failed _ _ _ _ _ _ _ _ Hv E) as [-> Hv1].
    now split.
  - now split.
Qed.

(** X4.  The combined program does not end once its input has failed: from
    any turn of the loop of [main] at which [cin] has failed and the last
    command was not [q], the loop is never left; in particular [main] never
    returns when the input is empty or blank. *)
Theorem main_cpp_never_ends_without_q :
  forall (F : NumFacets) (fuel : nat) (indet : passenger.t),
    (forall (n : nat) (c : ascii) (lists : drivers.t * passengers.t)
            (w : world),
        failed w -> c <> "q"%char ->
        while_do n (fun s => negb (Ascii.eqb (fst s) "q"))
          (main_cpp.main_turn fuel indet) (c, lists) w = None)
    /\ (forall input : string,
          skipws input = "" ->
          main_cpp.main fuel indet (console input) = None).
Proof.
  intros F fuel indet. split.
  - intros n c lists w. apply main_cpp_loop_stuck.
  - intros input Hi. unfold main_cpp.main, pbind. unfold lift at 1 2.
    cbn [bind put console cin cout main_cpp.PrintMenu].
    destruct fuel as [|fuel]; [reflexivity |].
    cbn [while_do fst Ascii.eqb Bool.eqb negb].
    unfold main_cpp.main_turn at 1. unfold pbind at 1. unfold lift at 1.
    cbn [bind put cin cout].
    match goal with
    | |- context [get_char _ (mk_world (mk_istream input false false) ?out)] =>
        fold (typing input out); rewrite (get_char_blank _ input out Hi)
    end.
    cbn [Ascii.eqb Bool.eqb orb]. unfold lift at 1. unfold ret at 1.
    rewrite main_cpp_loop_stuck; [reflexivity | reflexivity | discriminate].
Qed.

Lemma main_cpp_never_ends_without_q_witness :
  skipws "" = ""
  /\ main_cpp.main (H := sample_facets) 7 zeroes (console "") = None.
Proof.
  split; [reflexivity |].
  apply (main_cpp_never_ends_without_q sample_facets 7 zeroes).
  reflexivity.
Defined.

(** ** Menu options *)

(** X2.  [ExecuteMenu] of main.cpp acts on the option [A] or [a] only: for
    every other option, the advertised E, D, F, S and P among them, it
    returns at once, with both collections and the console as they were. *)
Theorem main_cpp_other_options_do_nothing :
  forall (F : NumFacets) (fuel : nat) (option : ascii)
         (ListOfDrivers : drivers.t) (ListOfPassengers : passengers.t)
         (indet : passenger.t) (w : world),
    toupper option <> "A"%char ->
    main_cpp.ExecuteMenu fuel option ListOfDrivers ListOfPassengers indet w
    = Some ((ListOfDrivers, ListOfPassengers), w).
Proof.
  intros F fuel option LD LP indet w Ho. unfold main_cpp.ExecuteMenu.
  apply Ascii.eqb_neq in Ho. rewrite Ho. reflexivity.
Qed.

Lemma main_cpp_other_options_do_nothing_witness :
  toupper "D" <> "A"%char
  /\ main_cpp.ExecuteMenu (H := sample_facets) 3 "D"
       (drivers.make "Drivers List") (passengers.make "Passengers List")
       zeroes (console (line "1"))
     = Some ((drivers.make "Drivers List", passengers.make "Passengers List"),
             console (line "1")).
Proof.
  split; [discriminate |].
  apply (main_cpp_other_options_do_nothing sample_facets 3 "D").
  discriminate.
Defined.

(** X12.  [ExecuteMenu] of the two single-list programs acts on [a], [f]
    and, for passengers, [p] only: for every other option, the advertised
    [d] (remove item) and the upper-case [P] of the passenger menu among
    them, it returns the list and the console as they were. *)
Theorem single_list_other_options_do_nothing :
  forall (F : NumFacets) (option : ascii) (w : world),
    (forall (List : passengers.t) (auto indet : passenger.t),
        option <> "a"%char -> option <> "f"%char -> option <> "p"%char ->
        passengersmain.ExecuteMenu option List auto indet w = (List, w))
    /\ (forall (List : drivers.t) (auto : driver.t),
          option <> "a"%char -> option <> "f"%char ->
          drivermain.ExecuteMenu option List auto w = (List, w)).
Proof.
  intros F option w. split.
  - intros List auto indet Ha Hf Hp. unfold passengersmain.ExecuteMenu.
    apply Ascii.eqb_neq in Ha, Hf, Hp. now rewrite Ha, Hf, Hp.
  - intros List auto Ha Hf. unfold drivermain.ExecuteMenu.
    apply Ascii.eqb_neq in Ha, Hf. now rewrite Ha, Hf.
Qed.

Lemma single_list_other_options_do_nothing_witness :
  passengersmain.ExecuteMenu (H := sample_facets) "P"
    (passengers.make "Passengers List") zeroes zeroes (console (line "x"))
  = (passengers.make "Passengers List", console (line "x"))
  /\ drivermain.ExecuteMenu (H := sample_facets) "d"
       (drivers.make "Drivers") driver.default (console (line "x"))
     = (drivers.make "Drivers", console (line "x")).
Proof.
  split.
  - apply (single_list_other_options_do_nothing sample_facets "P");
      discriminate.
  - apply (single_list_other_options_do_nothing sample_facets "d");
      discriminate.
Defined.

Lemma toupper_is (ch up : ascii) :
  up = "A"%char \/ up = "B"%char ->
  toupper ch = up ->
  ch = up \/ ch = ascii_of_N (N_of_ascii up + 32).
Proof.
  intros Hu E.
  destruct ch as [[] [] [] [] [] [] [] []];
    destruct Hu as [-> | ->]; vm_compute in E;
    first [discriminate E | left; reflexivity | right; reflexivity].
Qed.

(** X3.  In main.cpp, once the option is [A] or [a] and the list chosen is
    drivers ([A], [a]) or passengers ([B], [b]), [ExecuteMenu] never
    returns, whatever the rest of the input is: each flow runs into a loop
    that is never left. *)
Theorem main_cpp_add_never_returns :
  forall (F : NumFacets) (fuel : nat) (option : ascii)
         (ListOfDrivers : drivers.t) (ListOfPassengers : passengers.t)
         (indet : passenger.t) (x ch : ascii) (rest out : string),
    toupper option = "A"%char ->
    toupper ch = "A"%char \/ toupper ch = "B"%char ->
    main_cpp.ExecuteMenu fuel option ListOfDrivers ListOfPassengers indet
      (typing (String x (String ch rest)) out)
    = None.
Proof.
  intros F fuel option LD LP indet x ch rest out Ho Hc.
  unfold main_cpp.ExecuteMenu. rewrite Ho. cbn [Ascii.eqb Bool.eqb].
  unfold pbind at 1. unfold lift at 1.
  assert (Hch : (ch = "A"%char \/ ch = "a"%char)
                \/ (ch = "B"%char \/ ch = "b"%char)).
  { destruct Hc as [Hc | Hc]; [left | right].
    - exact (toupper_is ch "A" (or_introl eq_refl) Hc).
    - exact (toupper_is ch "B" (or_intror eq_refl) Hc). }
  destruct Hch as [[-> | ->] | [-> | ->]];
    cbn -[main_cpp.add_driver main_cpp.add_passenger];
    unfold pbind;
    first [ now rewrite add_driver_never_returns
          | now rewrite add_passenger_never_returns ].
Qed.

Lemma main_cpp_add_never_returns_witness :
  toupper "a" = "A"%char
  /\ main_cpp.ExecuteMenu (H := sample_facets) 9 "a"
       (drivers.make "Drivers List") (passengers.make "Passengers List")
       zeroes (typing (line "" ++ line "b" ++ line "Bo" ++ line "7"
                       ++ line "cash") "")
     = None.
Proof.
  split; [reflexivity |].
  apply (main_cpp_add_never_returns sample_facets 9 "a"); [reflexivity |].
  right. reflexivity.
Defined.

(** ** What is typed is what is stored *)

Lemma line_app (s r : string) : line s ++ r = s ++ String nl r.
Proof. unfold line, endl. now rewrite append_assoc. Qed.

Lemma span_line_app (s r : string) :
  occurs nl s = false -> span_line (s ++ String nl r) = (s, Some r).
Proof.
  induction s as [|c s IH]; cbn [occurs append span_line]; intros Hs.
  - reflexivity.
  - apply orb_false_iff in Hs. destruct Hs as [Hc Hs].
    rewrite Hc, (IH Hs). reflexivity.
Qed.

Lemma span_digits_decimal (d : Decimal.uint) (r : string) :
  span_digits (NilEmpty.string_of_uint d ++ String nl r)
  = (NilEmpty.string_of_uint d, String nl r).
Proof.
  induction d as [|d IH|d IH|d IH|d IH|d IH|d IH|d IH|d IH|d IH|d IH];
    [reflexivity | ..];
    cbn [NilEmpty.string_of_uint append span_digits];
    change (isdigit _) with true; cbv iota; now rewrite IH.
Qed.

Lemma digits_value_decimal (d : Decimal.uint) (acc : nat) :
  digits_value (Z.of_nat acc) (NilEmpty.string_of_uint d)
  = Z.of_nat (Nat.of_uint_acc d acc).
Proof.
  revert acc.
  induction d as [|d IH|d IH|d IH|d IH|d IH|d IH|d IH|d IH|d IH|d IH];
    intros acc; [reflexivity | ..];
    cbn [NilEmpty.string_of_uint digits_value Nat.of_uint_acc];
    rewrite <- IH; f_equal; rewrite Nat.tail_mul_spec;
    match goal with |- context [Z.of_N (N_of_ascii ?c)] =>
      let v := eval vm_compute in (Z.of_N (N_of_ascii c)) in
      change (Z.of_N (N_of_ascii c)) with v
    end; lia.
Qed.

Lemma decimal_value (n : nat) : digits_value 0 (decimal n) = Z.of_nat n.
Proof.
  unfold decimal.
  pose proof (digits_value_decimal (Nat.to_uint n) 0) as H.
  cbn [Z.of_nat] in H. rewrite H. f_equal. apply Unsigned.of_to.
Qed.

(** The decimal digits of a size start with a digit. *)
Lemma decimal_head (n : nat) :
  exists (c : ascii) (t : string),
    decimal n = String c t /\ isdigit c = true.
Proof.
  unfold decimal. destruct (Nat.to_uint n) as [|d|d|d|d|d|d|d|d|d|d] eqn:E;
    try (eexists; eexists; split; reflexivity).
  exfalso. pose proof (Unsigned.of_to n) as H. rewrite E in H. cbn in H.
  subst n. discriminate E.
Qed.

Lemma digit_is_plain (c : ascii) :
  isdigit c = true ->
  isspace c = false /\ c <> "-"%char /\ c <> "+"%char.
Proof.
  destruct c as [[] [] [] [] [] [] [] []]; vm_compute;
    intros H; try discriminate H; repeat split; discriminate.
Qed.

Lemma extract_int_unsigned (lo hi : Z) (c : ascii) (s : string) :
  c <> "-"%char -> c <> "+"%char ->
  extract_int lo hi (String c s)
  = let (ds, r) := span_digits (String c s) in
    if is_empty ds then (0, true, r)
    else let v := digits_value 0 ds in
         if v <? lo then (lo, true, r)
         else if hi <? v then (hi, true, r) else (v, false, r).
Proof.
  intros Hm Hp. unfold extract_int.
  destruct c as [[] [] [] [] [] [] [] []];
    first [reflexivity | now elim Hm | now elim Hp].
Qed.

Lemma cin_ignore_typing (x : ascii) (r out : string) :
  cin_ignore (typing (String x r) out) = (tt, typing r out).
Proof. reflexivity. Qed.

Lemma getline_typing (old s r out : string) :
  occurs nl s = false ->
  getline old (typing (s ++ String nl r) out) = (s, typing r out).
Proof.
  intros Hs. unfold getline, typing. cbn [sentry good cin buf eofbit failbit negb andb cout].
  now rewrite (span_line_app s r Hs).
Qed.

Lemma get_int_typing (old : Z) (n : nat) (r out : string) :
  Z.of_nat n <= INT_MAX ->
  get_int old (typing (decimal n ++ String nl r) out)
  = (Z.of_nat n, typing (String nl r) out).
Proof.
  intros Hn. destruct (decimal_head n) as [c [t [E Hc]]].
  destruct (digit_is_plain c Hc) as [Hs [Hm Hp]].
  unfold get_int, typing.
  cbn [sentry good cin buf eofbit failbit negb andb cout].
  rewrite E. cbn [append skipws]. rewrite Hs. cbn [buf].
  rewrite (extract_int_unsigned _ _ c _ Hm Hp).
  change (String c (t ++ String nl r)) with (String c t ++ String nl r).
  rewrite <- E. unfold decimal at 1.
  rewrite span_digits_decimal. fold (decimal n).
  rewrite decimal_value, E. cbn [is_empty].
  assert (H0 : (Z.of_nat n <? INT_MIN) = false)
    by (apply Z.ltb_ge; unfold INT_MIN; lia).
  assert (H1 : (INT_MAX <? Z.of_nat n) = false) by (apply Z.ltb_ge; lia).
  rewrite H0, H1. reflexivity.
Qed.

Lemma get_bool_typing (old b : bool) (r out : string) :
  get_bool old (typing (bit b ++ String nl r) out)
  = (b, typing (String nl r) out).
Proof. destruct b; reflexivity. Qed.

Lemma get_float_typing `{NumFacets} (old f : float) (c : ascii)
    (t r out : string) :
  isspace c = false ->
  num_get_float (String c t ++ String nl r) = (f, false, String nl r) ->
  get_float old (typing (String c t ++ String nl r) out)
  = (f, typing (String nl r) out)
  /\ get_float old (typing (String nl (String c t ++ String nl r)) out)
     = (f, typing (String nl r) out).
Proof.
  intros Hc Hf. cbn [append] in Hf.
  split; unfold get_float, typing;
    cbn [sentry good cin buf eofbit failbit negb andb cout append skipws];
    try change (isspace nl) with true; cbv iota; rewrite Hc; cbn [buf];
    rewrite Hf; reflexivity.
Qed.

Lemma put_typing (s input out : string) :
  put s (typing input out) = (tt, typing input (out ++ s)).
Proof. reflexivity. Qed.

Ltac typed_step :=
  first
    [ rewrite put_typing
    | rewrite cin_ignore_typing
    | rewrite getline_typing by assumption
    | rewrite get_int_typing by assumption
    | rewrite get_bool_typing ];
  cbv beta iota.

(** X6.  The add flow of passengersmain.cpp stores what is typed.  When the
    input holds, after the one character the flow drops first, a name line,
    an id in decimal digits that fits an [int], a payment line, the handicap
    as 1 or 0, a rating text the locale reads as [f], and pets as 1 or 0,
    each ended by a newline, the passenger appended is exactly
    (name, id, payment, handicap, f, pets), the input up to the last of
    these newlines is consumed and [cin] stays good. *)
Theorem passengersmain_add_stores_what_is_typed :
  forall (F : NumFacets) (ListOfPassengers : passengers.t)
         (auto indet : passenger.t) (x : ascii) (name method : string)
         (n : nat) (h p : bool) (c : ascii) (t : string) (f : float)
         (rest out : string),
    occurs nl name = false ->
    occurs nl method = false ->
    Z.of_nat n <= INT_MAX ->
    isspace c = false ->
    (forall r, num_get_float (String c t ++ String nl r)
               = (f, false, String nl r)) ->
    let typed :=
      String x (line name ++ line (decimal n) ++ line method ++ line (bit h)
                ++ line (String c t) ++ line (bit p) ++ rest) in
    let after :=
      passengersmain.ExecuteMenu "a" ListOfPassengers auto indet
        (typing typed out) in
    fst after
    = passengers.Add ListOfPassengers
        (passenger.make name (Z.of_nat n) method h f p)
    /\ cin (snd after) = mk_istream rest false false.
Proof.
  intros F L auto indet x name method n h p c t f rest out
    Hname Hmethod Hn Hc Hf typed after.
  subst after typed. rewrite !line_app.
  unfold passengersmain.ExecuteMenu. cbn [Ascii.eqb Bool.eqb].
  unfold bind.
  repeat typed_step.
  rewrite (proj2 (get_float_typing _ f c t _ _ Hc (Hf _))). cbv beta iota.
  repeat typed_step.
  unfold ret. cbn [fst snd typing cin]. split; reflexivity.
Qed.

Lemma passengersmain_add_stores_what_is_typed_witness :
  fst (passengersmain.ExecuteMenu (H := sample_facets) "a"
         (passengers.make "Passengers List") zeroes zeroes
         (typing (String nl (line "Bo Li" ++ line (decimal 7) ++ line "cash"
                             ++ line (bit false) ++ line "3.0"
                             ++ line (bit true) ++ line "q")) ""))
  = passengers.Add (passengers.make "Passengers List")
      (passenger.make "Bo Li" 7 "cash" false (float_of_int 3) true).
Proof.
  apply (passengersmain_add_stores_what_is_typed sample_facets
           (passengers.make "Passengers List") zeroes zeroes nl "Bo Li" "cash"
           7 false true "3" ".0" (float_of_int 3) (line "q") "");
    try reflexivity.
  unfold INT_MAX. lia.
Defined.

(** X13.  The add flow of drivermain.cpp stores what is typed.  When the
    input holds, after the one character the flow drops first, an id in
    decimal digits, a name line, a capacity in decimal digits, handicap as 1
    or 0, a vehicle type line, a rating text the locale reads as [f],
    available and pets as 1 or 0, and a notes line, each ended by a newline,
    the driver handed to [Add] is exactly these nine values, the input up to
    the last of these newlines is consumed and [cin] stays good. *)
Theorem drivermain_add_stores_what_is_typed :
  forall (F : NumFacets) (ListOfDrivers : drivers.t) (auto : driver.t)
         (x : ascii) (i cap : nat) (name type notes : string)
         (h a p : bool) (c : ascii) (t : string) (f : float)
         (rest out : string),
    Z.of_nat i <= INT_MAX ->
    Z.of_nat cap <= INT_MAX ->
    occurs nl name = false ->
    occurs nl type = false ->
    occurs nl notes = false ->
    isspace c = false ->
    (forall r, num_get_float (String c t ++ String nl r)
               = (f, false, String nl r)) ->
    let typed :=
      String x (line (decimal i) ++ line name ++ line (decimal cap)
                ++ line (bit h) ++ line type ++ line (String c t)
                ++ line (bit a) ++ line (bit p) ++ line notes ++ rest) in
    let after :=
      drivermain.ExecuteMenu "a" ListOfDrivers auto (typing typed out) in
    fst after
    = drivers.Add ListOfDrivers
        (driver.make (Z.of_nat i) name (Z.of_nat cap) h type f a p notes)
    /\ cin (snd after) = mk_istream rest false false.
Proof.
  intros F L auto x i cap name type notes h a p c t f rest out
    Hi Hcap Hname Htype Hnotes Hc Hf typed after.
  subst after typed. rewrite !line_app.
  unfold drivermain.ExecuteMenu. cbn [Ascii.eqb Bool.eqb].
  unfold bind.
  repeat typed_step.
  rewrite (proj1 (get_float_typing _ f c t _ _ Hc (Hf _))). cbv beta iota.
  repeat typed_step.
  unfold ret. cbn [fst snd typing cin]. split; reflexivity.
Qed.

Lemma drivermain_add_stores_what_is_typed_witness :
  fst (drivermain.ExecuteMenu (H := sample_facets) "a"
         (drivers.make "Drivers") driver.default
         (typing (String nl (line (decimal 1) ++ line "Ana" ++ line (decimal 4)
                             ++ line (bit false) ++ line "sedan" ++ line "4.5"
                             ++ line (bit true) ++ line (bit false)
                             ++ line "" ++ line "q")) ""))
  = drivers.Add (drivers.make "Drivers")
      (driver.make 1 "Ana" 4 false "sedan" (S754_finite false 9437184 (-21))
         true false "").
Proof.
  apply (drivermain_add_stores_what_is_typed sample_facets
           (drivers.make "Drivers") driver.default nl 1 4 "Ana" "sedan" ""
           false true false "4" ".5" (S754_finite false 9437184 (-21))
           (line "q") "");
    try reflexivity; unfold INT_MAX; lia.
Defined.

(** ** More on records, lookup and the rating loops *)

Lemma passenger_rating_loop_validates `{NumFacets} (fuel : nat)
    (l l' : main_cpp.locals) (w w' : world) :
  do_while fuel main_cpp.passenger_rating_body main_cpp.rating_cond l w
    = Some (l', w') ->
  float_lt (passenger.getRating (main_cpp.p l')) (float_of_int 1) = false
  /\ float_lt (float_of_int 5) (passenger.getRating (main_cpp.p l')) = false.
Proof.
  intros E. pose proof (do_while_exit _ _ _ _ _ _ _ E) as Hc.
  assert (Hd : passenger.getRating (main_cpp.p l') = main_cpp.tempFloat l').
  { destruct fuel as [|fuel]; [discriminate E |].
    clear Hc. revert l w E.
    induction fuel as [|fuel IH]; intros l w; cbn [do_while];
      destruct (main_cpp.passenger_rating_body l w) as [l1 w1] eqn:B;
      unfold main_cpp.passenger_rating_body, bind, put, ret in B;
      destruct (get_float (main_cpp.tempFloat l) _) as [f w2];
      injection B as <- <-;
      destruct (main_cpp.rating_cond _).
    - discriminate.
    - intros [= <- <-]. reflexivity.
    - apply IH.
    - intros [= <- <-]. reflexivity. }
  rewrite Hd. unfold main_cpp.rating_cond in Hc.
  now apply orb_false_iff in Hc.
Qed.

(** X5.  The two rating loops of main.cpp validate: whenever one of them is
    left, the rating stored in the record (by [setRating] inside the loop)
    is neither below 1 nor above 5, however many out-of-range values were
    typed before. *)
Theorem rating_loops_leave_a_rating_in_range :
  forall (F : NumFacets) (fuel : nat) (l l' : main_cpp.locals) (w w' : world),
    (do_while fuel main_cpp.driver_rating_body main_cpp.rating_cond l w
       = Some (l', w') ->
     float_lt (driver.getRating (main_cpp.d l')) (float_of_int 1) = false
     /\ float_lt (float_of_int 5) (driver.getRating (main_cpp.d l')) = false)
    /\ (do_while fuel main_cpp.passenger_rating_body main_cpp.rating_cond l w
          = Some (l', w') ->
        float_lt (passenger.getRating (main_cpp.p l')) (float_of_int 1) = false
        /\ float_lt (float_of_int 5) (passenger.getRating (main_cpp.p l'))
           = false).
Proof.
  intros F fuel l l' w w'. split.
  - apply driver_rating_loop_validates.
  - apply passenger_rating_loop_validates.
Qed.

Lemma rating_loops_leave_a_rating_in_range_witness :
  match do_while 3 (main_cpp.driver_rating_body (H := sample_facets))
          main_cpp.rating_cond (main_cpp.entry zeroes)
          (console (line "0.5" ++ line "5.5" ++ line "4.5")) with
  | Some (l', _) =>
      float_lt (driver.getRating (main_cpp.d l')) (float_of_int 1) = false
      /\ float_lt (float_of_int 5) (driver.getRating (main_cpp.d l')) = false
  | None => False
  end.
Proof.
  destruct (do_while 3 (main_cpp.driver_rating_body (H := sample_facets))
              main_cpp.rating_cond (main_cpp.entry zeroes)
              (console (line "0.5" ++ line "5.5" ++ line "4.5")))
    as [[l' w']|] eqn:E.
  - apply (proj1 (rating_loops_leave_a_rating_in_range sample_facets 3
                    (main_cpp.entry zeroes) l' _ w') E).
  - vm_compute in E. discriminate E.
Defined.

(** X15.  Calling every setter of a record overwrites it completely: the
    result is the record the parameterized constructor builds from the same
    values, whatever the object held before.  This is how the add flows
    build their records, and why nothing of a default-constructed
    passenger's unassigned members reaches a collection. *)
Theorem all_setters_build_the_constructed_record :
  (forall (start : driver.t) (i cap : Z) (name type notes : string)
          (h a p : bool) (r : float),
      driver.setNotes
        (driver.setPets
           (driver.setAvailable
              (driver.setRating
                 (driver.setType
                    (driver.setHandicap
                       (driver.setCapacity
                          (driver.setName (driver.setID start i) name) cap)
                       h)
                    type)
                 r)
              a)
           p)
        notes
      = driver.make i name cap h type r a p notes)
  /\ (forall (start : passenger.t) (i : Z) (name method : string)
             (h p : bool) (r : float),
        passenger.setPets
          (passenger.setRating
             (passenger.setHandicap
                (passenger.setPaymentMethod
                   (passenger.setName (passenger.setID start i) name) method)
                h)
             r)
          p
        = passenger.make name i method h r p).
Proof. split; intros; reflexivity. Qed.

(** X16.  [FindEntry], for any [==] and [<<]: when it has a defined
    behaviour, the collection splits as [before ++ r :: after] where [r]
    equals [n], no record of [before] does, and the call writes [r] and a
    newline and leaves the collection as it was; it has no defined
    behaviour exactly when no record equals [n]. *)
Theorem FindEntry_first_match_or_undefined :
  forall (O : PassengerOperators) (this : passengers.t) (n : Z),
    match passengers.FindEntry this n with
    | Some m =>
        exists (before after : list passenger.t) (r : passenger.t),
          passengers.TotalPassengers this = (before ++ r :: after)%list
          /\ Forall (fun y => eq_int y n = false) before
          /\ eq_int r n = true
          /\ writes m this (put_passenger r ++ endl)
    | None =>
        Forall (fun y => eq_int y n = false) (passengers.TotalPassengers this)
    end.
Proof.
  intros O [rs name] n. unfold passengers.FindEntry.
  cbn [passengers.TotalPassengers].
  induction rs as [|y rs IH]; cbn [std_find].
  - constructor.
  - destruct (eq_int y n) eqn:E.
    + exists [], rs, y. repeat split; [constructor | exact E |].
      eapply writes_text; [writes_steps | text_eq].
    + destruct (std_find eq_int rs n) as [|r it] eqn:Ef.
      * constructor; [exact E | exact IH].
      * destruct IH as [before [after [r' [Hrs [Hb [Hr Hw]]]]]].
        exists (y :: before), after, r'. rewrite Hrs.
        repeat split; [constructor; assumption | exact Hr |].
        intros w. specialize (Hw w). cbn in Hw |- *.
        unfold bind, put, ret in Hw |- *. cbn in Hw |- *.
        injection Hw as Hw. now rewrite Hw.
Qed.

Lemma main_cpp_stores_nothing_witness :
  match main_cpp.main (H := sample_facets) 3 zeroes
          (console (line "A" ++ line "C" ++ line "q")) with
  | Some (_, (d_list, p_list), _) =>
      d_list = drivers.make "Drivers List"
      /\ p_list = passengers.make "Passengers List"
  | None => False
  end.
Proof.
  destruct (main_cpp.main (H := sample_facets) 3 zeroes
              (console (line "A" ++ line "C" ++ line "q")))
    as [[[z [d_list p_list]] w']|] eqn:E.
  - exact (main_cpp_stores_nothing (H := sample_facets) _ _ _ _ _ _ _ E).
  - vm_compute in E. discriminate E.
Defined.

Lemma get_char_typing (old c : ascii) (input r out : string) :
  skipws input = String c r ->
  get_char old (typing input out) = (c, typing r out).
Proof.
  intros Hi. unfold get_char, sentry, good, typing. cbn. now rewrite Hi.
Qed.

(** X11.  The passenger program ends at [q]: when the first thing on the
    input that is not white space is [q], [main] returns 0 after one turn
    of its loop, with the collection empty as created and the input after
    the [q] unread. *)
Theorem passengersmain_q_ends_the_program :
  forall (F : NumFacets) (n : nat) (auto indet : passenger.t)
         (input rest : string),
    skipws input = String "q" rest ->
    exists out : string,
      passengersmain.main (S (S n)) auto indet (console input)
      = Some ((0, passengers.make "Passengers List"), typing rest out).
Proof.
  intros F n auto indet input rest Hi.
  unfold passengersmain.main, pbind, lift.
  cbn [bind put console cin cout passengersmain.PrintMenu].
  cbn [while_do fst Ascii.eqb Bool.eqb negb]. unfold lift.
  unfold passengersmain.main_turn at 1. unfold bind at 1 2.
  cbn [put cin cout].
  match goal with
  | |- context [get_char _ (mk_world (mk_istream input false false) ?o)] =>
      fold (typing input o); rewrite (get_char_typing _ "q" input rest o Hi)
  end.
  cbv beta iota. cbn [Ascii.eqb Bool.eqb orb ret fst snd negb].
  eexists. reflexivity.
Qed.

Lemma passengersmain_q_ends_the_program_witness :
  exists out : string,
    passengersmain.main (H := sample_facets) 2 zeroes zeroes
      (console (line "" ++ line " q" ++ line "a"))
    = Some ((0, passengers.make "Passengers List"), typing (line "" ++ line "a") out).
Proof.
  apply (passengersmain_q_ends_the_program sample_facets 0 zeroes zeroes).
  reflexivity.
Defined.
